(** * Gldcart backend: the order coordinator and the two cart services

    A shallow embedding of [OrderService]
    (src/modules/order/services/order.service.ts) and of the two
    [CartService] classes, with the theorems that settle the claims of the
    specification about them.

    Asynchronous methods are computations over an explicit [World]: the
    committed database, the driver's client sessions, the logger's output
    and the trace of calls made to the store and to the collaborators.  A
    rejected promise is a [Throw] completion; the world reached when the
    exception was raised is kept, as it is in JavaScript. *)

From stdpp Require Import gmap strings list fin_maps pretty.

Open Scope Z_scope.
Open Scope string_scope.
Open Scope list_scope.

(** ** Completions and the monad of asynchronous methods *)

Inductive Exception : Type :=
| NotFoundException (message : string)
| InsufficientStock (productRef : string)
| GatewayError (message : string)
| NotifierError (message : string)
| TransactionConflict (message : string)
| MongoError (message : string)
| CastError (value : string) (path : string)
| ValidationError (path : string).

Inductive Completion (A : Type) : Type :=
| Return (a : A)
| Throw (e : Exception).
Arguments Return {A} a.
Arguments Throw {A} e.

Definition is_throw {A} (c : Completion A) : bool :=
  match c with Return _ => false | Throw _ => true end.

(** ** Identities

    The store keeps identities as ObjectIds and the services receive them
    as strings.  A string casts to an ObjectId when it is made of 24
    hexadecimal digits; the ObjectId is written back ([toString]) in lower
    case, its canonical form.  A string that does not cast makes the query
    or the validation it is part of fail. *)

Definition is_hex_digit (c : Ascii.ascii) : bool :=
  let n := Ascii.nat_of_ascii c in
  ((48 <=? n) && (n <=? 57) || (97 <=? n) && (n <=? 102)
   || (65 <=? n) && (n <=? 70))%nat.

Definition lower_hex (c : Ascii.ascii) : Ascii.ascii :=
  let n := Ascii.nat_of_ascii c in
  if ((65 <=? n) && (n <=? 70))%nat then Ascii.ascii_of_nat (n + 32) else c.

Definition castObjectId (s : string) : option string :=
  if (String.length s =? 24)%nat && forallb is_hex_digit (String.list_ascii_of_string s)
  then Some (String.string_of_list_ascii
              (lower_hex <$> String.list_ascii_of_string s))
  else None.

Definition isObjectId (s : string) : bool :=
  match castObjectId s with Some _ => true | None => false end.

Module Order.

(** *** Data model *)

(** Modelled from the spec: the enumeration [OrderStatus] is declared in
    @order/enums/order-status.enum, which is not among the sources; the
    spec's state machine names its four values. *)
Inductive OrderStatus : Type := PENDING | PAID | FAILED | CANCELLED.

Definition status_to_string (s : OrderStatus) : string :=
  match s with
  | PENDING => "PENDING"
  | PAID => "PAID"
  | FAILED => "FAILED"
  | CANCELLED => "CANCELLED"
  end.


Record LineItem : Type := mkLineItem {
  id : string;          (* product reference, [items.id] in the schema *)
  quantity : Z;
  price : Z
}.

(** Modelled from the spec: [CreateOrderDto] (@order/dto/create-order.dto)
    is not among the sources; the spec gives [placeOrder] the requested
    line items and the amount. *)
Record CreateOrderDto : Type := mkCreateOrderDto {
  dto_items : list LineItem;
  dto_amount : Z
}.

Record OrderDocument : Type := mkOrder {
  _id : string;
  items : list LineItem;
  amount : Z;
  status : OrderStatus
}.

(** [Partial<OrderDocument>]: every field optional. *)
Record PartialOrder : Type := mkPartial {
  p_items : option (list LineItem);
  p_amount : option Z;
  p_status : option OrderStatus
}.

Definition apply_update (data : PartialOrder) (o : OrderDocument) : OrderDocument :=
  {| _id := _id o;
     items := default (items o) (p_items data);
     amount := default (amount o) (p_amount data);
     status := default (status o) (p_status data) |}.

Record PaymentIntent : Type := mkPaymentIntent {
  intent_id : string;
  client_secret : string
}.

(** *** The database and the driver's sessions *)

Record Db : Type := mkDb {
  orders : gmap string OrderDocument;
  stock : gmap string Z
}.

(** States of a session's transaction, as the MongoDB driver names them. *)
Inductive TxnState : Type :=
| NO_TRANSACTION
| STARTING_TRANSACTION
| TRANSACTION_IN_PROGRESS
| TRANSACTION_COMMITTED
| TRANSACTION_COMMITTED_EMPTY
| TRANSACTION_ABORTED.

Definition txn_active (t : TxnState) : bool :=
  match t with
  | STARTING_TRANSACTION | TRANSACTION_IN_PROGRESS => true
  | _ => false
  end.

Record ClientSession : Type := mkSession {
  txn : TxnState;
  staged : Db;         (* the transaction's view: its own writes applied *)
  hasEnded : bool
}.

Inductive LogEntry : Type :=
| LOG (message : string)
| ERROR (message : string) (stack : Exception).

Inductive Event : Type :=
| EvSaved (o : OrderDocument)
| EvCreatePaymentIntent (amount : Z) (metadata : list (string * string))
                        (customer : string)
| EvStartSession (sid : nat)
| EvStartTransaction (sid : nat)
| EvFindOneAndUpdate (orderId : string) (sid : nat)
| EvUpdateInventory (its : list LineItem) (sid : nat)
| EvCommitTransaction (sid : nat)
| EvAbortTransaction (sid : nat)
| EvEndSession (sid : nat)
| EvSendOrderConfirmationEmail (o : OrderDocument).

Record World : Type := mkWorld {
  db : Db;
  sessions : list ClientSession;
  log : list LogEntry;
  trace : list Event
}.

Definition set_db (d : Db) (w : World) : World :=
  {| db := d; sessions := sessions w; log := log w; trace := trace w |}.
Definition set_sessions (ss : list ClientSession) (w : World) : World :=
  {| db := db w; sessions := ss; log := log w; trace := trace w |}.
Definition add_log (e : LogEntry) (w : World) : World :=
  {| db := db w; sessions := sessions w; log := log w ++ [e]; trace := trace w |}.
Definition add_trace (e : Event) (w : World) : World :=
  {| db := db w; sessions := sessions w; log := log w; trace := trace w ++ [e] |}.

Definition Async (A : Type) : Type := World -> Completion A * World.

Definition ret {A} (a : A) : Async A := fun w => (Return a, w).
Definition throw {A} (e : Exception) : Async A := fun w => (Throw e, w).
Definition bind {A B} (m : Async A) (k : A -> Async B) : Async B :=
  fun w =>
    match m w with
    | (Return a, w') => k a w'
    | (Throw e, w') => (Throw e, w')
    end.

Notation "x <- m ;; k" := (bind m (fun x => k))
  (at level 100, m at next level, right associativity).
Notation "m ;; k" := (bind m (fun _ => k))
  (at level 100, right associativity).

(** [try { body } catch (error) { handler } finally { fin }]: the handler
    runs on an exception of the body, [fin] runs on every path, and an
    exception of [fin] replaces the completion reached before it. *)
Definition try_catch_finally {A} (body : Async A)
    (handler : Exception -> Async A) (fin : Async unit) : Async A :=
  fun w =>
    let '(r1, w1) := body w in
    let '(r2, w2) :=
      match r1 with
      | Return a => (Return a, w1)
      | Throw e => handler e w1
      end in
    let '(r3, w3) := fin w2 in
    match r3 with
    | Return _ => (r2, w3)
    | Throw e => (Throw e, w3)
    end.

Definition logger_log (message : string) : Async unit :=
  fun w => (Return tt, add_log (LOG message) w).
Definition logger_error (message : string) (stack : Exception) : Async unit :=
  fun w => (Return tt, add_log (ERROR message stack) w).

(** *** The MongoDB driver: sessions and transactions

    The driver is a dependency of the repository, not part of it.  A
    session's transaction follows the driver's state machine; an operation
    that carries a session with an active transaction reads and writes the
    transaction's own view [staged], which [commitTransaction] publishes
    and [abortTransaction] drops. *)

Definition update_session (sid : nat) (s : ClientSession) (w : World) : World :=
  set_sessions (<[sid := s]> (sessions w)) w.

Definition session_view (sid : nat) (w : World) : Db :=
  match sessions w !! sid with
  | Some s => if txn_active (txn s) then staged s else db w
  | None => db w
  end.

Definition session_write (sid : nat) (d : Db) (w : World) : World :=
  match sessions w !! sid with
  | Some s =>
      if txn_active (txn s)
      then update_session sid (mkSession TRANSACTION_IN_PROGRESS d (hasEnded s)) w
      else set_db d w
  | None => set_db d w
  end.

Definition no_session : Exception :=
  MongoError "Use of expired sessions is not permitted".

Definition startSession : Async nat :=
  fun w =>
    let sid := length (sessions w) in
    (Return sid,
     add_trace (EvStartSession sid)
       (set_sessions (sessions w ++ [mkSession NO_TRANSACTION (db w) false]) w)).

Definition startTransaction (sid : nat) : Async unit :=
  fun w =>
    match sessions w !! sid with
    | None => (Throw no_session, w)
    | Some s =>
        if txn_active (txn s)
        then (Throw (MongoError "Transaction already in progress"), w)
        else (Return tt,
              add_trace (EvStartTransaction sid)
                (update_session sid
                   (mkSession STARTING_TRANSACTION (db w) (hasEnded s)) w))
    end.

Definition endSession (sid : nat) : Async unit :=
  fun w =>
    let w := add_trace (EvEndSession sid) w in
    match sessions w !! sid with
    | None => (Return tt, w)
    | Some s =>
        if hasEnded s then (Return tt, w)
        else
          let t := if txn_active (txn s) then TRANSACTION_ABORTED else txn s in
          (Return tt, update_session sid (mkSession t (staged s) true) w)
    end.

(** *** Collaborators that are not among the sources *)

Record Collaborators : Type := mkCollaborators {
  (* the ObjectId drawn by [new this.orderModel(..)] *)
  generateId : gmap string OrderDocument -> string;
  (* a rejection of [save()] for this document, if any *)
  saveFailure : OrderDocument -> option string;
  (* StripeService.createPaymentIntent: an intent or a gateway error *)
  createPaymentIntent :
    Z -> list (string * string) -> string -> string + PaymentIntent;
  (* EmailService.sendOrderConfirmationEmail: [Some m] when it rejects *)
  sendOrderConfirmationEmail : OrderDocument -> option string;
  (* a conflict reported by the server at commit, if any *)
  commitFailure : option string;
  (* what [abortTransaction] answers on a committed transaction: the
     driver raises "Cannot call abortTransaction after calling
     commitTransaction"; [None] stands for a driver that lets it pass *)
  abortAfterCommit : option string
}.

(** Modelled from the spec: the Inventory Adjuster
    (@inventory/services/inventory.service) is not among the sources.
    Given the line items and the transaction handle it applies every
    decrement inside that transaction and signals [InsufficientStock] for
    the first item that cannot be satisfied; decrements already applied for
    earlier items stay in the transaction's view, and the adjuster neither
    commits nor aborts. *)
Fixpoint adjust (its : list LineItem) (st : gmap string Z)
  : Completion unit * gmap string Z :=
  match its with
  | [] => (Return tt, st)
  | it :: rest =>
      match st !! id it with
      | Some q =>
          if decide (quantity it <= q)
          then adjust rest (<[id it := q - quantity it]> st)
          else (Throw (InsufficientStock (id it)), st)
      | None => (Throw (InsufficientStock (id it)), st)
      end
  end.

Definition InventoryService_updateInventory (its : list LineItem) (sid : nat)
  : Async unit :=
  fun w =>
    let w := add_trace (EvUpdateInventory its sid) w in
    let d := session_view sid w in
    let '(r, st') := adjust its (stock d) in
    (r, session_write sid (mkDb (orders d) st') w).

Section OrderService.

Variable deps : Collaborators.

Definition commitTransaction (sid : nat) : Async unit :=
  fun w =>
    let w := add_trace (EvCommitTransaction sid) w in
    match sessions w !! sid with
    | None => (Throw no_session, w)
    | Some s =>
        match txn s with
        | NO_TRANSACTION => (Throw (MongoError "No transaction started"), w)
        | STARTING_TRANSACTION | TRANSACTION_COMMITTED_EMPTY =>
            (Return tt,
             update_session sid
               (mkSession TRANSACTION_COMMITTED_EMPTY (staged s) (hasEnded s)) w)
        | TRANSACTION_ABORTED =>
            (Throw (MongoError
               "Cannot call commitTransaction after calling abortTransaction"), w)
        | TRANSACTION_COMMITTED => (Return tt, w)
        | TRANSACTION_IN_PROGRESS =>
            let w' :=
              update_session sid
                (mkSession TRANSACTION_COMMITTED (staged s) (hasEnded s)) w in
            match commitFailure deps with
            | Some m => (Throw (TransactionConflict m), w')
            | None => (Return tt, set_db (staged s) w')
            end
        end
    end.

Definition abortTransaction (sid : nat) : Async unit :=
  fun w =>
    let w := add_trace (EvAbortTransaction sid) w in
    match sessions w !! sid with
    | None => (Throw no_session, w)
    | Some s =>
        match txn s with
        | NO_TRANSACTION => (Throw (MongoError "No transaction started"), w)
        | STARTING_TRANSACTION | TRANSACTION_IN_PROGRESS =>
            (Return tt,
             update_session sid
               (mkSession TRANSACTION_ABORTED (db w) (hasEnded s)) w)
        | TRANSACTION_ABORTED =>
            (Throw (MongoError "Cannot call abortTransaction twice"), w)
        | TRANSACTION_COMMITTED | TRANSACTION_COMMITTED_EMPTY =>
            match abortAfterCommit deps with
            | Some m => (Throw (MongoError m), w)
            | None => (Return tt, w)
            end
        end
    end.

(** [this.orderModel.findOneAndUpdate({ _id: orderId }, data,
    { new: true, session })]: the filter is the identity alone, and the
    updated document is returned.  The filter is cast before the query is
    sent: a string that is no ObjectId is refused with a cast error, and no
    operation reaches the session.  The collection holds documents under
    ObjectIds only, so a string that does not cast is the identity of no
    document; the lookup is written first and the cast decides what an
    absent identity gives ([findOneAndUpdate_cast_first] below). *)
Definition findOneAndUpdate (orderId : string) (data : PartialOrder)
    (sid : nat) : Async (option OrderDocument) :=
  fun w =>
    let w := add_trace (EvFindOneAndUpdate orderId sid) w in
    let d := session_view sid w in
    match orders d !! orderId with
    | Some o =>
        let o' := apply_update data o in
        (Return (Some o'),
         session_write sid (mkDb (<[orderId := o']> (orders d)) (stock d)) w)
    | None =>
        if isObjectId orderId
        then (Return None, session_write sid d w)
        else (Throw (CastError orderId "_id"), w)
    end.

(** [new this.orderModel(order)].  Modelled from the spec: the schema
    (@order/schemas/order.schema) is not among the sources; a new order
    starts in status [PENDING]. *)
Definition new_orderModel (order : CreateOrderDto) : Async OrderDocument :=
  fun w =>
    (Return {| _id := generateId deps (orders (db w));
               items := dto_items order;
               amount := dto_amount order;
               status := PENDING |}, w).

(** [newOrder.save()], outside any session: the insert reaches the
    database at once, and an identity already present is refused. *)
Definition save (o : OrderDocument) : Async unit :=
  fun w =>
    match saveFailure deps o with
    | Some m => (Throw (MongoError m), w)
    | None =>
        match orders (db w) !! _id o with
        | Some _ => (Throw (MongoError "E11000 duplicate key error"), w)
        | None =>
            (Return tt,
             add_trace (EvSaved o)
               (set_db (mkDb (<[_id o := o]> (orders (db w))) (stock (db w))) w))
        end
    end.

Definition StripeService_createPaymentIntent (amount : Z)
    (metadata : list (string * string)) (customer : string)
  : Async PaymentIntent :=
  fun w =>
    let w := add_trace (EvCreatePaymentIntent amount metadata customer) w in
    match createPaymentIntent deps amount metadata customer with
    | inr intent => (Return intent, w)
    | inl m => (Throw (GatewayError m), w)
    end.

Definition EmailService_sendOrderConfirmationEmail (o : OrderDocument)
  : Async unit :=
  fun w =>
    let w := add_trace (EvSendOrderConfirmationEmail o) w in
    match sendOrderConfirmationEmail deps o with
    | None => (Return tt, w)
    | Some m => (Throw (NotifierError m), w)
    end.

(** *** OrderService *)

Definition createOrder (order : CreateOrderDto) : Async OrderDocument :=
  logger_log "Creating new order" ;;
  newOrder <- new_orderModel order ;;
  save newOrder ;;
  logger_log ("Order created with ID: " +:+ _id newOrder) ;;
  ret newOrder.

Definition placeOrder (order : CreateOrderDto) (stripeCustomerId : string)
  : Async string :=
  logger_log ("Placing order for customer " +:+ stripeCustomerId +:+
              " with amount " +:+ pretty (dto_amount order)) ;;
  newOrder <- createOrder order ;;
  paymentIntent <- StripeService_createPaymentIntent
                     (dto_amount order)
                     [("order_id", _id newOrder)]
                     stripeCustomerId ;;
  logger_log ("Order placed successfully for customer " +:+ stripeCustomerId) ;;
  ret (client_secret paymentIntent).

Definition updateOrder (orderId : string) (data : PartialOrder) (session : nat)
  : Async OrderDocument :=
  logger_log ("Updating order with ID: " +:+ orderId) ;;
  order <- findOneAndUpdate orderId data session ;;
  match order with
  | None =>
      throw (NotFoundException ("Order with ID " +:+ orderId +:+ " not found"))
  | Some order =>
      logger_log ("Order with ID " +:+ orderId +:+ " updated successfully") ;;
      ret order
  end.

Definition updateInventory (its : list LineItem) (session : nat) : Async unit :=
  logger_log "Updating inventory for items" ;;
  InventoryService_updateInventory its session.

Definition processOrder (orderId : string) (status : OrderStatus) : Async unit :=
  logger_log ("Processing order with ID: " +:+ orderId +:+
              " to status: " +:+ status_to_string status) ;;
  session <- startSession ;;
  startTransaction session ;;
  try_catch_finally
    (order <- updateOrder orderId (mkPartial None None (Some status)) session ;;
     updateInventory (items order) session ;;
     commitTransaction session ;;
     logger_log ("Order with ID " +:+ orderId +:+ " processed successfully") ;;
     EmailService_sendOrderConfirmationEmail order)
    (fun error =>
       abortTransaction session ;;
       logger_error ("Failed to process order with ID: " +:+ orderId) error ;;
       throw error)
    (endSession session).

End OrderService.

End Order.

(** ** The cart services

    [CartService] comes in two versions (the unnamed sources part_000 and
    part_001).  Both run against the same mongoose model of the cart
    collection, embedded once in [CartModel]; each class is then embedded
    on its own, method by method, in [CartService0] and [CartService1]. *)

Module CartModel.

Record ItemDto : Type := mkItem {   (* CreateItemDto, and a cart's item *)
  id : string;
  quantity : Z
}.

Record UpdateItemDto : Type := mkUpdateItem { new_quantity : Z }.

Record AddShippingOptionsDto : Type :=
  mkAddShipping { shipping_options : list string }.

Record RemoveShippingOptionDto : Type :=
  mkRemoveShipping { shipping_option : string }.

Record CartDocument : Type := mkCart {
  _id : string;
  customer : string;
  items : list ItemDto;
  shipping : list string
}.

Record Product : Type := mkProduct { product_id : string; title : string }.

(** A cart after [populate('items.id')]: every reference is replaced by
    the product it names, or by null when there is none. *)
Record PopulatedItem : Type := mkPopulatedItem {
  populated_id : option Product;
  populated_quantity : Z
}.

Record PopulatedCart : Type := mkPopulatedCart {
  pc_id : string;
  pc_customer : string;
  pc_items : list PopulatedItem;
  pc_shipping : list string
}.

Record Store : Type := mkStore {
  carts : list CartDocument;         (* the collection, in natural order *)
  products : gmap string Product
}.

Definition Async (A : Type) : Type := Store -> Completion A * Store.

Definition ret {A} (a : A) : Async A := fun s => (Return a, s).
Definition throw {A} (e : Exception) : Async A := fun s => (Throw e, s).
Definition bind {A B} (m : Async A) (k : A -> Async B) : Async B :=
  fun s =>
    match m s with
    | (Return a, s') => k a s'
    | (Throw e, s') => (Throw e, s')
    end.

Definition findById (i : string) : Async (option CartDocument) :=
  fun s => (Return (List.find (fun c => String.eqb (_id c) i) (carts s)), s).

(** [findOne({ customer: userId })].  The filter is cast before the query
    is sent, and the collection holds customers as ObjectIds only: as for
    the orders, the lookup is written first and the cast decides what an
    absent customer gives. *)
Definition findOne_customer (userId : string) : Async (option CartDocument) :=
  fun s =>
    match List.find (fun c => String.eqb (customer c) userId) (carts s) with
    | Some c => (Return (Some c), s)
    | None =>
        if isObjectId userId
        then (Return None, s)
        else (Throw (CastError userId "customer"), s)
    end.

Definition populate_item (ps : gmap string Product) (it : ItemDto)
  : PopulatedItem :=
  {| populated_id := ps !! id it; populated_quantity := quantity it |}.

Definition populate (c : option CartDocument) : Async (option PopulatedCart) :=
  fun s =>
    (Return
       ((fun c => {| pc_id := _id c;
                     pc_customer := customer c;
                     pc_items := populate_item (products s) <$> items c;
                     pc_shipping := shipping c |}) <$> c), s).

(** [Array.prototype.findIndex] and [indexOf]: the first position that
    qualifies, [-1] when there is none. *)
Fixpoint findIndex {A} (p : A -> bool) (l : list A) : Z :=
  match l with
  | [] => -1
  | x :: l' =>
      if p x then 0
      else let i := findIndex p l' in if (i =? -1)%Z then -1 else i + 1
  end.

Definition indexOf (l : list string) (x : string) : Z :=
  findIndex (String.eqb x) l.

Definition includes (l : list string) (x : string) : bool :=
  existsb (String.eqb x) l.

(** [l.splice(i, 1)] *)
Definition splice1 {A} (i : Z) (l : list A) : list A :=
  delete (Z.to_nat i) l.

Fixpoint replace_cart (c : CartDocument) (l : list CartDocument)
  : list CartDocument :=
  match l with
  | [] => []
  | x :: l' =>
      if String.eqb (_id x) (_id c) then c :: l' else x :: replace_cart c l'
  end.

(** [doc.save()] on a document read from the collection. *)
Definition save (c : CartDocument) : Async CartDocument :=
  fun s => (Return c, mkStore (replace_cart c (carts s)) (products s)).

Fixpoint delete_cart (i : string) (l : list CartDocument) : list CartDocument :=
  match l with
  | [] => []
  | x :: l' => if String.eqb (_id x) i then l' else x :: delete_cart i l'
  end.

Definition findByIdAndDelete (i : string) : Async (option CartDocument) :=
  fun s =>
    match List.find (fun c => String.eqb (_id c) i) (carts s) with
    | Some c => (Return (Some c), mkStore (delete_cart i (carts s)) (products s))
    | None => (Return None, s)
    end.

(** What the schema makes of an item handed to a cart: the product
    reference is cast to an ObjectId, and kept in its canonical form. *)
Definition cast_item (it : ItemDto) : option ItemDto :=
  (fun k => {| id := k; quantity := quantity it |}) <$> castObjectId (id it).

Section NewDocuments.

(* the ObjectId drawn by [new this.cartModel(..)] *)
Variable generateId : list CartDocument -> string.

(** [new this.cartModel({ customer, items })] followed by [save()].  The
    customer and the product references are cast; [save()] rejects when a
    cast failed, and the insert is refused under an identity already in
    the collection.  Otherwise the document is inserted; the schema's array
    [shipping] starts empty. *)
Definition create_and_save (userId : string) (its : list ItemDto)
  : Async CartDocument :=
  fun s =>
    match castObjectId userId, mapM cast_item its with
    | Some u, Some its' =>
        let c := {| _id := generateId (carts s); customer := u;
                    items := its'; shipping := [] |} in
        match List.find (fun x => String.eqb (_id x) (_id c)) (carts s) with
        | Some _ => (Throw (MongoError "E11000 duplicate key error"), s)
        | None => (Return c, mkStore (carts s ++ [c]) (products s))
        end
    | None, _ => (Throw (ValidationError "customer"), s)
    | Some _, None => (Throw (ValidationError "items"), s)
    end.

End NewDocuments.

(** The assignment [item.quantity = q] through the reference that
    [items.find(p)] returned: it changes the first qualifying item. *)
Fixpoint assign_quantity (p : ItemDto -> bool) (q : Z) (l : list ItemDto)
  : list ItemDto :=
  match l with
  | [] => []
  | x :: l' =>
      if p x then {| id := id x; quantity := q |} :: l'
      else x :: assign_quantity p q l'
  end.

Definition with_items (its : list ItemDto) (c : CartDocument) : CartDocument :=
  {| _id := _id c; customer := customer c; items := its; shipping := shipping c |}.

Definition with_shipping (sh : list string) (c : CartDocument) : CartDocument :=
  {| _id := _id c; customer := customer c; items := items c; shipping := sh |}.

Notation "x <- m ;; k" := (bind m (fun x => k))
  (at level 100, m at next level, right associativity).

End CartModel.

(** *** The first version (part_000) *)

Module CartService0.
Import CartModel.

Section Service.

Variable generateId : list CartDocument -> string.

Definition getById (i : string) : Async CartDocument :=
  cart <- findById i ;;
  match cart with
  | None => throw (NotFoundException ("Cart with ID " +:+ i +:+ " not found"))
  | Some cart => ret cart
  end.

Definition getWithItemsById (i : string) : Async PopulatedCart :=
  found <- findById i ;;
  cart <- populate found ;;
  match cart with
  | None => throw (NotFoundException ("Cart with ID " +:+ i +:+ " not found"))
  | Some cart => ret cart
  end.

Definition getWithItemsByUserId (userId : string) : Async PopulatedCart :=
  found <- findOne_customer userId ;;
  cart <- populate found ;;
  match cart with
  | None =>
      throw (NotFoundException
               ("No carts found for user with id " +:+ userId))
  | Some cart => ret cart
  end.

Definition getByIdOrThrow (i : string) : Async CartDocument :=
  cart <- findById i ;;
  match cart with
  | None => throw (NotFoundException ("Cart with ID " +:+ i +:+ " not found"))
  | Some cart => ret cart
  end.

Definition createWithItem (userId : string) (newItem : ItemDto)
  : Async CartDocument :=
  create_and_save generateId userId [newItem].

Definition addItemToExisting (existingCart : CartDocument) (newItem : ItemDto)
  : Async CartDocument :=
  let itemExists :=
    existsb (fun item => String.eqb (id item) (id newItem))
            (items existingCart) in
  if negb itemExists
  then
    (* [push] casts the new item; [save()] rejects when the cast failed *)
    match cast_item newItem with
    | Some item => save (with_items (items existingCart ++ [item]) existingCart)
    | None => throw (ValidationError "items")
    end
  else save existingCart.

Definition addItem (userId : string) (newItem : ItemDto) : Async CartDocument :=
  existingCart <- findOne_customer userId ;;
  match existingCart with
  | None => createWithItem userId newItem
  | Some existingCart => addItemToExisting existingCart newItem
  end.

Definition updateItem (i : string) (updateItem : ItemDto) : Async CartDocument :=
  existingCart <- getByIdOrThrow i ;;
  let itemIndex :=
    findIndex (fun item => String.eqb (id item) (id updateItem))
              (items existingCart) in
  if (itemIndex =? -1)%Z
  then throw (NotFoundException
                ("Item with ID " +:+ id updateItem +:+ " not found in cart"))
  else save (with_items
               (<[Z.to_nat itemIndex := updateItem]> (items existingCart))
               existingCart).

Definition removeItem (i : string) (itemId : string) : Async CartDocument :=
  existingCart <- getByIdOrThrow i ;;
  let itemIndex :=
    findIndex (fun item => String.eqb (id item) itemId) (items existingCart) in
  if (itemIndex =? -1)%Z
  then throw (NotFoundException ("Item with ID " +:+ i +:+ " not found in cart"))
  else save (with_items (splice1 itemIndex (items existingCart)) existingCart).

Definition updateItemQuantity (i : string) (itemId : string)
    (updateItem : UpdateItemDto) : Async CartDocument :=
  existingCart <- getByIdOrThrow i ;;
  let item :=
    List.find (fun it => String.eqb (id it) itemId) (items existingCart) in
  match item with
  | None =>
      throw (NotFoundException
               ("Item with ID " +:+ itemId +:+ " not found in cart"))
  | Some _ =>
      save (with_items
              (assign_quantity (fun it => String.eqb (id it) itemId)
                 (new_quantity updateItem) (items existingCart))
              existingCart)
  end.

Definition addShippingOption (i : string)
    (shippingOption : AddShippingOptionsDto)
  : Async CartDocument :=
  cart <- getByIdOrThrow i ;;
  let newShippingOptions :=
    List.filter (fun option => negb (includes (shipping cart) option))
                (shipping_options shippingOption) in
  save (with_shipping (shipping cart ++ newShippingOptions) cart).

Definition removeShippingOption (i : string)
    (shippingOption : RemoveShippingOptionDto)
  : Async CartDocument :=
  cart <- getByIdOrThrow i ;;
  let index := indexOf (shipping cart) (shipping_option shippingOption) in
  if (index >? -1)%Z
  then save (with_shipping (splice1 index (shipping cart)) cart)
  else throw (NotFoundException
                ("Shipping option " +:+ shipping_option shippingOption +:+
                 " not found in cart")).

Definition remove (i : string) : Async string :=
  result <- findByIdAndDelete i ;;
  match result with
  | None => throw (NotFoundException ("Cart with ID " +:+ i +:+ " not found"))
  | Some _ => ret "Cart deleted successfully"
  end.

End Service.

End CartService0.

(** *** The second version (part_001) *)

Module CartService1.
Import CartModel.

Section Service.

Variable generateId : list CartDocument -> string.

Definition getCartById (i : string) : Async CartDocument :=
  cart <- findById i ;;
  match cart with
  | None => throw (NotFoundException ("Cart with ID " +:+ i +:+ " not found"))
  | Some cart => ret cart
  end.

Definition getCartWithItemsById (i : string) : Async PopulatedCart :=
  found <- findById i ;;
  cart <- populate found ;;
  match cart with
  | None => throw (NotFoundException ("Cart with ID " +:+ i +:+ " not found"))
  | Some cart => ret cart
  end.

Definition getWithItemsByUserId (userId : string) : Async PopulatedCart :=
  found <- findOne_customer userId ;;
  cart <- populate found ;;
  match cart with
  | None =>
      throw (NotFoundException
               ("No carts found for user with id " +:+ userId))
  | Some cart => ret cart
  end.

Definition getCartByIdOrThrow (i : string) : Async CartDocument :=
  cart <- findById i ;;
  match cart with
  | None => throw (NotFoundException ("Cart with ID " +:+ i +:+ " not found"))
  | Some cart => ret cart
  end.

Definition createCartWithItem (userId : string) (newItem : ItemDto)
  : Async CartDocument :=
  create_and_save generateId userId [newItem].

Definition addItemToExistingCart (existingCart : CartDocument)
    (newItem : ItemDto) : Async CartDocument :=
  let itemExists :=
    existsb (fun item => String.eqb (id item) (id newItem))
            (items existingCart) in
  if negb itemExists
  then
    (* [push] casts the new item; [save()] rejects when the cast failed *)
    match cast_item newItem with
    | Some item => save (with_items (items existingCart ++ [item]) existingCart)
    | None => throw (ValidationError "items")
    end
  else save existingCart.

Definition addItemToCart (userId : string) (newItem : ItemDto)
  : Async CartDocument :=
  existingCart <- findOne_customer userId ;;
  match existingCart with
  | None => createCartWithItem userId newItem
  | Some existingCart => addItemToExistingCart existingCart newItem
  end.

Definition updateItemInCart (i : string) (updateItem : ItemDto)
  : Async CartDocument :=
  existingCart <- getCartByIdOrThrow i ;;
  let itemIndex :=
    findIndex (fun item => String.eqb (id item) (id updateItem))
              (items existingCart) in
  if (itemIndex =? -1)%Z
  then throw (NotFoundException
                ("Item with ID " +:+ id updateItem +:+ " not found in cart"))
  else save (with_items
               (<[Z.to_nat itemIndex := updateItem]> (items existingCart))
               existingCart).

Definition removeItemFromCart (i : string) (itemId : string)
  : Async CartDocument :=
  existingCart <- getCartByIdOrThrow i ;;
  let itemIndex :=
    findIndex (fun item => String.eqb (id item) itemId) (items existingCart) in
  if (itemIndex =? -1)%Z
  then throw (NotFoundException ("Item with ID " +:+ i +:+ " not found in cart"))
  else save (with_items (splice1 itemIndex (items existingCart)) existingCart).

Definition updateItemQuantityInCart (i : string) (itemId : string)
    (updateItem : UpdateItemDto) : Async CartDocument :=
  existingCart <- getCartByIdOrThrow i ;;
  let item :=
    List.find (fun it => String.eqb (id it) itemId) (items existingCart) in
  match item with
  | None =>
      throw (NotFoundException
               ("Item with ID " +:+ itemId +:+ " not found in cart"))
  | Some _ =>
      save (with_items
              (assign_quantity (fun it => String.eqb (id it) itemId)
                 (new_quantity updateItem) (items existingCart))
              existingCart)
  end.

Definition addShippingToCart (i : string)
    (shippingOption : AddShippingOptionsDto)
  : Async CartDocument :=
  cart <- getCartByIdOrThrow i ;;
  let newShippingOptions :=
    List.filter (fun option => negb (includes (shipping cart) option))
                (shipping_options shippingOption) in
  save (with_shipping (shipping cart ++ newShippingOptions) cart).

Definition removeShippingInCart (i : string)
    (shippingOption : RemoveShippingOptionDto)
  : Async CartDocument :=
  cart <- getCartByIdOrThrow i ;;
  let index := indexOf (shipping cart) (shipping_option shippingOption) in
  if (index >? -1)%Z
  then save (with_shipping (splice1 index (shipping cart)) cart)
  else throw (NotFoundException
                ("Shipping option " +:+ shipping_option shippingOption +:+
                 " not found in cart")).

Definition removeCart (i : string) : Async string :=
  result <- findByIdAndDelete i ;;
  match result with
  | None => throw (NotFoundException ("Cart with ID " +:+ i +:+ " not found"))
  | Some _ => ret "Cart deleted successfully"
  end.

End Service.

End CartService1.

(** ** Scenarios used by the witnesses and the counterexamples *)

Import Order.

Definition demo_items : list LineItem :=
  [mkLineItem "B" 1 5; mkLineItem "A" 2 7].

Definition demo_order (s : OrderStatus) : OrderDocument :=
  mkOrder "o1" demo_items 19 s.

(** One order, and [n] units in stock of each of its two products. *)
Definition demo_world (s : OrderStatus) (n : Z) : World :=
  mkWorld (mkDb {["o1" := demo_order s]} {["A" := n; "B" := n]}) [] [] [].

Definition demo_dto : CreateOrderDto := mkCreateOrderDto demo_items 19.

Definition demo_intent : PaymentIntent := mkPaymentIntent "pi_1" "pi_1_secret".

(** Every collaborator answers. *)
Definition quiet_deps : Collaborators :=
  {| generateId := fun _ => "o2";
     saveFailure := fun _ => None;
     createPaymentIntent := fun _ _ _ => inr demo_intent;
     sendOrderConfirmationEmail := fun _ => None;
     commitFailure := None;
     abortAfterCommit :=
       Some "Cannot call abortTransaction after calling commitTransaction" |}.

(** The mail server is down. *)
Definition mail_down_deps : Collaborators :=
  {| generateId := fun _ => "o2";
     saveFailure := fun _ => None;
     createPaymentIntent := fun _ _ _ => inr demo_intent;
     sendOrderConfirmationEmail := fun _ => Some "connect ECONNREFUSED";
     commitFailure := None;
     abortAfterCommit :=
       Some "Cannot call abortTransaction after calling commitTransaction" |}.

(** The payment gateway refuses every intent. *)
Definition gateway_down_deps : Collaborators :=
  {| generateId := fun _ => "o2";
     saveFailure := fun _ => None;
     createPaymentIntent := fun _ _ _ => inl "api_connection_error";
     sendOrderConfirmationEmail := fun _ => None;
     commitFailure := None;
     abortAfterCommit :=
       Some "Cannot call abortTransaction after calling commitTransaction" |}.

(** A store with one cart, of user u1. *)
Definition demo_cart : CartModel.CartDocument :=
  CartModel.mkCart "c1" "u1"
    [CartModel.mkItem "p1" 1; CartModel.mkItem "p2" 4] ["standard"].

Definition demo_store : CartModel.Store :=
  CartModel.mkStore [demo_cart] {["p1" := CartModel.mkProduct "p1" "Ring"]}.

(** A second cart, of another user, beside the first. *)
Definition demo_cart2 : CartModel.CartDocument :=
  CartModel.mkCart "c2" "u2" [CartModel.mkItem "p1" 2] [].

Definition demo_store2 : CartModel.Store :=
  CartModel.mkStore [demo_cart; demo_cart2] (CartModel.products demo_store).

(** A user and a product in the canonical form of an ObjectId, and another
    spelling of the product. *)
Definition user_oid : string := "5f1d7f3a9c2b4e0012ab34cd".
Definition product_oid : string := "5f1d7f3a9c2b4e0012ab34ce".
Definition product_oid_upper : string := "5F1D7F3A9C2B4E0012AB34CE".

Definition is_end_session (sid : nat) (e : Event) : bool :=
  match e with
  | EvEndSession s => bool_decide (s = sid)
  | _ => false
  end.

(** The document [findOneAndUpdate] leaves for a status update. *)
Definition with_status (s : OrderStatus) (o : OrderDocument) : OrderDocument :=
  apply_update (mkPartial None None (Some s)) o.

(** The document [createOrder] builds in world [w]. *)
Definition created_order (deps : Collaborators) (order : CreateOrderDto)
    (w : World) : OrderDocument :=
  {| _id := generateId deps (orders (db w));
     items := dto_items order;
     amount := dto_amount order;
     status := PENDING |}.



(** ** The read path of [OrderService] *)

(** An order after [populate('items.id')]: each product reference is
    replaced by the product document it names, or by null.  The product
    collection is read only here; it is passed as the catalogue [P]
    documents are drawn from. *)
Record PopulatedLineItem (P : Type) : Type := mkPopulatedLineItem {
  populated_id : option P;
  populated_quantity : Z;
  populated_price : Z
}.
Arguments mkPopulatedLineItem {P} _ _ _.
Arguments populated_id {P} _.
Arguments populated_quantity {P} _.
Arguments populated_price {P} _.

Record PopulatedOrder (P : Type) : Type := mkPopulatedOrder {
  po_id : string;
  po_items : list (PopulatedLineItem P);
  po_amount : Z;
  po_status : OrderStatus
}.
Arguments mkPopulatedOrder {P} _ _ _ _.
Arguments po_id {P} _.
Arguments po_items {P} _.
Arguments po_amount {P} _.
Arguments po_status {P} _.

Definition populate_order {P} (catalog : gmap string P) (o : OrderDocument)
  : PopulatedOrder P :=
  {| po_id := _id o;
     po_items :=
       (fun it => {| populated_id := catalog !! id it;
                     populated_quantity := quantity it;
                     populated_price := price it |}) <$> items o;
     po_amount := amount o;
     po_status := status o |}.

(** [this.orderModel.findById(orderId).populate('items.id').lean()], with
    no session: it reads the committed database.  As for
    [findOneAndUpdate], an identity that is no ObjectId is refused with a
    cast error. *)
Definition findById_populate_lean {P} (catalog : gmap string P)
    (orderId : string) : Async (option (PopulatedOrder P)) :=
  fun w =>
    match orders (db w) !! orderId with
    | Some o => (Return (Some (populate_order catalog o)), w)
    | None =>
        if isObjectId orderId
        then (Return None, w)
        else (Throw (CastError orderId "_id"), w)
    end.

Definition getOrderWithItemsById {P} (catalog : gmap string P)
    (orderId : string) : Async (PopulatedOrder P) :=
  logger_log ("Fetching order with ID: " +:+ orderId) ;;
  order <- findById_populate_lean catalog orderId ;;
  match order with
  | None =>
      throw (NotFoundException ("Order with ID " +:+ orderId +:+ " not found"))
  | Some order =>
      logger_log ("Order with ID " +:+ orderId +:+ " fetched successfully") ;;
      ret order
  end.

(** Identities are drawn one after the other: o2, then o3. *)
Definition counting_deps : Collaborators :=
  {| generateId :=
       fun m => match m !! "o2" with Some _ => "o3" | None => "o2" end;
     saveFailure := fun _ => None;
     createPaymentIntent := fun _ _ _ => inr demo_intent;
     sendOrderConfirmationEmail := fun _ => None;
     commitFailure := None;
     abortAfterCommit :=
       Some "Cannot call abortTransaction after calling commitTransaction" |}.

Definition demo_catalog : gmap string string := {["A" := "Anklet"]}.

(** The identities of the carts of a store, of the items of a cart, and
    the populated form of a cart. *)
Definition cart_ids (st : CartModel.Store) : list string :=
  CartModel._id <$> CartModel.carts st.

Definition item_ids (c : CartModel.CartDocument) : list string :=
  CartModel.id <$> CartModel.items c.

Definition populated (ps : gmap string CartModel.Product)
    (c : CartModel.CartDocument) : CartModel.PopulatedCart :=
  {| CartModel.pc_id := CartModel._id c;
     CartModel.pc_customer := CartModel.customer c;
     CartModel.pc_items := CartModel.populate_item ps <$> CartModel.items c;
     CartModel.pc_shipping := CartModel.shipping c |}.


(** The identities of the stored orders are ObjectIds in canonical form. *)
Definition ids_well_formed (d : Db) : Prop :=
  forall k, is_Some (orders d !! k) -> castObjectId k = Some k.

(** An ObjectId under which the demo worlds hold nothing. *)
Definition absent_id : string := "64b7f0c2a1d3e4f5a6b7c8d9".


(** ** Theorems about [OrderService] *)

Section OrderTheorems.

Local Arguments String.append : simpl never.
Local Arguments pretty : simpl never.
Local Arguments isObjectId : simpl never.

Lemma lookup_last_session (ss : list ClientSession) s :
  (ss ++ [s]) !! length ss = Some s.
Proof. by apply list_lookup_middle. Qed.

Lemma insert_last_session (ss : list ClientSession) s s' :
  <[length ss := s']> (ss ++ [s]) = ss ++ [s'].
Proof. rewrite insert_app_r_alt by lia. by rewrite Nat.sub_diag. Qed.

Ltac unfold_service :=
  unfold processOrder, placeOrder, createOrder, updateOrder, updateInventory,
    try_catch_finally, bind, ret, throw, logger_log, logger_error,
    startSession, startTransaction, endSession, commitTransaction,
    abortTransaction, findOneAndUpdate, InventoryService_updateInventory,
    EmailService_sendOrderConfirmationEmail, StripeService_createPaymentIntent,
    new_orderModel, save, session_view, session_write, update_session,
    set_db, set_sessions, add_log, add_trace.

Ltac simp_sessions :=
  repeat (cbn; rewrite ?lookup_last_session, ?insert_last_session).

Ltac run_service := unfold_service; simp_sessions.

(** Splits on the outcome of the inventory adjuster, simplifying the
    hypotheses that speak of it. *)
Ltac case_adjust :=
  match goal with
  | |- context [adjust ?its ?st] =>
      let st' := fresh "st'" in
      let e := fresh "e" in
      destruct (adjust its st) as [[[]|e] st'] eqn:?; simpl in *
  end.

(** *** The model at work *)

(** The adjuster fails on the second item after it decremented the first:
    the transaction's view holds a partial decrement at that point. *)
Example adjust_partial :
  adjust demo_items {["A" := 1; "B" := 1]}
  = (Throw (InsufficientStock "A"), {["A" := 1; "B" := 0]}).
Proof. reflexivity. Qed.

Example processOrder_commits :
  let r := processOrder quiet_deps "o1" PAID (demo_world PENDING 5) in
  r.1 = Return tt /\
  orders (db r.2) !! "o1" = Some (demo_order PAID) /\
  stock (db r.2) !! "A" = Some 3 /\ stock (db r.2) !! "B" = Some 4 /\
  trace r.2 = [EvStartSession 0; EvStartTransaction 0;
               EvFindOneAndUpdate "o1" 0; EvUpdateInventory demo_items 0;
               EvCommitTransaction 0;
               EvSendOrderConfirmationEmail (demo_order PAID);
               EvEndSession 0].
Proof. vm_compute. repeat split. Qed.

(** The handler aborts a transaction that is already committed: with the
    driver that refuses this, the notifier's failure is neither logged nor
    the error the caller sees. *)
Example processOrder_mail_down :
  let r := processOrder mail_down_deps "o1" PAID (demo_world PENDING 5) in
  r.1 = Throw (MongoError
                 "Cannot call abortTransaction after calling commitTransaction") /\
  orders (db r.2) !! "o1" = Some (demo_order PAID) /\
  log r.2 = [LOG "Processing order with ID: o1 to status: PAID";
             LOG "Updating order with ID: o1";
             LOG "Order with ID o1 updated successfully";
             LOG "Updating inventory for items";
             LOG "Order with ID o1 processed successfully"].
Proof. vm_compute. repeat split. Qed.

(** Served one after the other, two calls for the same order both commit,
    and the stock is decremented twice. *)
Example processOrder_twice :
  let w1 := (processOrder quiet_deps "o1" PAID (demo_world PENDING 5)).2 in
  let r2 := processOrder quiet_deps "o1" PAID w1 in
  r2.1 = Return tt /\
  stock (db w1) !! "A" = Some 3 /\
  stock (db r2.2) !! "A" = Some 1.
Proof. vm_compute. repeat split. Qed.

Example placeOrder_log :
  log (placeOrder quiet_deps demo_dto "cus_1" (demo_world PENDING 5)).2
  = [LOG "Placing order for customer cus_1 with amount 19";
     LOG "Creating new order";
     LOG "Order created with ID: o2";
     LOG "Order placed successfully for customer cus_1"].
Proof. vm_compute. reflexivity. Qed.

(** The adjuster signals nothing but a shortage of stock. *)
Lemma adjust_throws its st e :
  (adjust its st).1 = Throw e -> exists p, e = InsufficientStock p.
Proof.
  revert st. induction its as [|it rest IH]; intros st; simpl.
  - discriminate.
  - destruct (st !! id it) as [q|]; [case_decide|]; simpl; eauto.
    all: intros [= <-]; eauto.
Qed.

(** C1: if the inventory decrement fails for an item of the order, the
    transaction is aborted and the error re-raised: the committed database
    is the one before the call, so no line item is decremented and the
    order keeps its status. *)
Theorem processOrder_atomic deps orderId s w o e :
  orders (db w) !! orderId = Some o ->
  (adjust (items o) (stock (db w))).1 = Throw e ->
  let r := processOrder deps orderId s w in
  r.1 = Throw e /\
  db r.2 = db w /\
  status <$> orders (db r.2) !! orderId = Some (status o) /\
  stock (db r.2) = stock (db w) /\
  txn <$> sessions r.2 !! length (sessions w) = Some TRANSACTION_ABORTED.
Proof.
  intros Ho Ha r. subst r. run_service. rewrite Ho. simp_sessions.
  case_adjust; [discriminate|]. simp_sessions.
  injection Ha as ->. by rewrite Ho.
Qed.

Lemma processOrder_atomic_witness :
  orders (db (demo_world PENDING 1)) !! "o1" = Some (demo_order PENDING) /\
  (adjust (items (demo_order PENDING)) (stock (db (demo_world PENDING 1)))).1
  = Throw (InsufficientStock "A") /\
  let r := processOrder quiet_deps "o1" PAID (demo_world PENDING 1) in
  r.1 = Throw (InsufficientStock "A") /\
  db r.2 = db (demo_world PENDING 1) /\
  status <$> orders (db r.2) !! "o1" = Some (status (demo_order PENDING)) /\
  stock (db r.2) = stock (db (demo_world PENDING 1)) /\
  txn <$> sessions r.2 !! length (sessions (demo_world PENDING 1))
  = Some TRANSACTION_ABORTED.
Proof.
  split; [reflexivity|]. split; [reflexivity|].
  apply (processOrder_atomic quiet_deps "o1" PAID (demo_world PENDING 1)
           (demo_order PENDING) (InsufficientStock "A")); reflexivity.
Defined.







(** C4: [placeOrder] writes the new order, in status PENDING, before it
    calls the payment gateway, and returns no client secret for an order
    that was not written.  When the store accepts the write (the document
    is not refused and its identity is not taken), the calls made are the
    write followed by one gateway call whose metadata carries the order's
    identity, the store holds the order in status PENDING whatever the
    gateway answers, and the result is the gateway's: the client secret of
    its intent, or its error.  When the store refuses the write, the call
    rejects, the gateway is not called and nothing is stored. *)
Theorem placeOrder_persists_first deps order customer w :
  let r := placeOrder deps order customer w in
  let o := created_order deps order w in
  match saveFailure deps o, orders (db w) !! _id o with
  | None, None =>
      trace r.2
      = trace w ++ [EvSaved o;
                    EvCreatePaymentIntent (dto_amount order)
                      [("order_id", _id o)] customer] /\
      orders (db r.2) !! _id o = Some o /\
      status o = PENDING /\
      r.1 = match createPaymentIntent deps (dto_amount order)
                    [("order_id", _id o)] customer with
            | inr intent => Return (client_secret intent)
            | inl m => Throw (GatewayError m)
            end
  | _, _ =>
      is_throw r.1 = true /\ trace r.2 = trace w /\ db r.2 = db w
  end.
Proof.
  intros r o. subst r o. unfold created_order. run_service.
  destruct (saveFailure deps _); simp_sessions.
  { by destruct (orders (db w) !! generateId deps (orders (db w))). }
  destruct (orders (db w) !! generateId deps (orders (db w))) eqn:Hid;
    simp_sessions; [done|].
  destruct (createPaymentIntent deps _ _ _); simp_sessions;
    rewrite <- app_assoc, lookup_insert_eq; split_and!; reflexivity.
Qed.

(** The two outcomes of the write, on the demo world: an identity that is
    free, and one that is taken. *)
Example placeOrder_stores_then_calls :
  let r := placeOrder quiet_deps demo_dto "cus_1" (demo_world PENDING 5) in
  r.1 = Return "pi_1_secret" /\
  orders (db r.2) !! "o2" = Some (mkOrder "o2" demo_items 19 PENDING) /\
  trace r.2 = [EvSaved (mkOrder "o2" demo_items 19 PENDING);
               EvCreatePaymentIntent 19 [("order_id", "o2")] "cus_1"].
Proof. vm_compute. split_and!; reflexivity. Qed.

Example placeOrder_identity_taken :
  let deps := mkCollaborators (fun _ => "o1") (fun _ => None)
                (fun _ _ _ => inr demo_intent) (fun _ => None) None None in
  let r := placeOrder deps demo_dto "cus_1" (demo_world PENDING 5) in
  r.1 = Throw (MongoError "E11000 duplicate key error") /\
  trace r.2 = [] /\
  orders (db r.2) !! "o1" = Some (demo_order PENDING).
Proof. vm_compute. split_and!; reflexivity. Qed.

(** C5: when the gateway refuses the intent after the order was written,
    the gateway's error reaches the caller and the order written stays in
    the store, in status PENDING: the store is the one the write left. *)
Theorem placeOrder_gateway_failure deps order customer w m :
  let o := created_order deps order w in
  saveFailure deps o = None ->
  orders (db w) !! _id o = None ->
  createPaymentIntent deps (dto_amount order) [("order_id", _id o)] customer
  = inl m ->
  let r := placeOrder deps order customer w in
  r.1 = Throw (GatewayError m) /\
  db r.2 = mkDb (<[_id o := o]> (orders (db w))) (stock (db w)) /\
  orders (db r.2) !! _id o = Some o /\
  status <$> orders (db r.2) !! _id o = Some PENDING.
Proof.
  intros o Hs Hid Hg r. subst r o. unfold created_order in *. cbn in *.
  run_service. rewrite Hs. simp_sessions. rewrite Hid. simp_sessions.
  rewrite Hg. simp_sessions. by rewrite lookup_insert_eq.
Qed.

Lemma placeOrder_gateway_failure_witness :
  let w := demo_world PENDING 5 in
  let o := created_order gateway_down_deps demo_dto w in
  saveFailure gateway_down_deps o = None /\
  orders (db w) !! _id o = None /\
  createPaymentIntent gateway_down_deps (dto_amount demo_dto)
    [("order_id", _id o)] "cus_1" = inl "api_connection_error" /\
  let r := placeOrder gateway_down_deps demo_dto "cus_1" w in
  r.1 = Throw (GatewayError "api_connection_error") /\
  db r.2 = mkDb (<[_id o := o]> (orders (db w))) (stock (db w)) /\
  orders (db r.2) !! _id o = Some o /\
  status <$> orders (db r.2) !! _id o = Some PENDING.
Proof.
  intros w o. repeat (split; [reflexivity|]).
  apply (placeOrder_gateway_failure gateway_down_deps demo_dto "cus_1" w
           "api_connection_error"); reflexivity.
Defined.

(** C9: when the order is written and the gateway answers with an intent
    for the requested amount, the metadata [order_id -> identity of the new
    order] and the caller's customer reference, [placeOrder] resolves to
    that intent's client secret; the gateway is called once, with these
    arguments, and nothing is called after it. *)
Theorem placeOrder_returns_client_secret deps order customer w intent :
  let o := created_order deps order w in
  saveFailure deps o = None ->
  orders (db w) !! _id o = None ->
  createPaymentIntent deps (dto_amount order) [("order_id", _id o)] customer
  = inr intent ->
  let r := placeOrder deps order customer w in
  r.1 = Return (client_secret intent) /\
  trace r.2
  = trace w ++ [EvSaved o;
                EvCreatePaymentIntent (dto_amount order)
                  [("order_id", _id o)] customer].
Proof.
  intros o Hs Hid Hg r. subst r o. unfold created_order in *. cbn in *.
  run_service. rewrite Hs. simp_sessions. rewrite Hid. simp_sessions.
  rewrite Hg. simp_sessions. by rewrite <- app_assoc.
Qed.

Lemma placeOrder_returns_client_secret_witness :
  let w := demo_world PENDING 5 in
  let o := created_order quiet_deps demo_dto w in
  saveFailure quiet_deps o = None /\
  orders (db w) !! _id o = None /\
  createPaymentIntent quiet_deps (dto_amount demo_dto)
    [("order_id", _id o)] "cus_1" = inr demo_intent /\
  let r := placeOrder quiet_deps demo_dto "cus_1" w in
  r.1 = Return (client_secret demo_intent) /\
  trace r.2
  = trace w ++ [EvSaved o;
                EvCreatePaymentIntent (dto_amount demo_dto)
                  [("order_id", _id o)] "cus_1"].
Proof.
  intros w o. repeat (split; [reflexivity|]).
  apply (placeOrder_returns_client_secret quiet_deps demo_dto "cus_1" w
           demo_intent); reflexivity.
Defined.

(** On a store whose identities are ObjectIds, [findOneAndUpdate] is the
    cast followed by the query. *)
Lemma findOneAndUpdate_cast_first orderId data sid w :
  ids_well_formed (session_view sid (add_trace (EvFindOneAndUpdate orderId sid) w)) ->
  findOneAndUpdate orderId data sid w
  = (if isObjectId orderId
     then findOneAndUpdate orderId data sid w
     else (Throw (CastError orderId "_id"),
           add_trace (EvFindOneAndUpdate orderId sid) w)).
Proof.
  intros Hwf. unfold findOneAndUpdate.
  destruct (orders _ !! orderId) as [o|] eqn:Ho.
  - assert (H : isObjectId orderId = true); [|by rewrite H].
    unfold isObjectId. by rewrite (Hwf orderId) by by rewrite Ho.
  - by destruct (isObjectId orderId).
Qed.



(** The two ways of missing an order. *)
Example processOrder_absent_object_id :
  (processOrder quiet_deps absent_id PAID (demo_world PENDING 5)).1
  = Throw (NotFoundException
             "Order with ID 64b7f0c2a1d3e4f5a6b7c8d9 not found").
Proof. vm_compute. reflexivity. Qed.

Example processOrder_malformed_id :
  (processOrder quiet_deps "o7" PAID (demo_world PENDING 5)).1
  = Throw (CastError "o7" "_id").
Proof. vm_compute. reflexivity. Qed.

(** C7: on every execution of [processOrder] the session opened at the
    start is ended exactly once, by the last call the method makes, and is
    marked ended in the world the method leaves; this holds for the normal
    completion and for every exception (NotFound, a failed inventory
    update, a refused commit, a failed notifier, a refused abort). *)
Theorem processOrder_ends_session deps orderId s w :
  let w' := (processOrder deps orderId s w).2 in
  let sid := length (sessions w) in
  exists evs,
    trace w' = trace w ++ EvStartSession sid :: EvStartTransaction sid :: evs /\
    length (List.filter (is_end_session sid) evs) = 1%nat /\
    last evs = Some (EvEndSession sid) /\
    hasEnded <$> sessions w' !! sid = Some true.
Proof.
  intros w' sid. subst w' sid. run_service.
  assert (Hb : bool_decide (length (sessions w) = length (sessions w)) = true)
    by by apply bool_decide_eq_true_2.
  destruct (orders (db w) !! orderId) as [o|]; simp_sessions;
    [case_adjust; simp_sessions;
     [destruct (commitFailure deps); simp_sessions;
      [|destruct (sendOrderConfirmationEmail deps _); simp_sessions];
      try (destruct (abortAfterCommit deps); simp_sessions)|]
    |destruct (isObjectId orderId); simp_sessions];
    (eexists; split; [by rewrite <- !app_assoc|]);
    cbn; rewrite Hb; done.
Qed.

(** *** Further properties of [processOrder] and [placeOrder] *)

(** What a resolved [placeOrder] has stored. *)
Lemma placeOrder_stores deps order customer w secret :
  (placeOrder deps order customer w).1 = Return secret ->
  orders (db w) !! _id (created_order deps order w) = None /\
  db (placeOrder deps order customer w).2
  = mkDb (<[_id (created_order deps order w) := created_order deps order w]>
            (orders (db w)))
         (stock (db w)).
Proof.
  unfold created_order. run_service.
  destruct (saveFailure deps _); simp_sessions; [discriminate|].
  destruct (orders (db w) !! generateId deps (orders (db w))) eqn:Hid;
    simp_sessions; [discriminate|].
  destruct (createPaymentIntent deps _ _ _); simp_sessions;
    [discriminate|done].
Qed.

(** What [processOrder] does to an order that exists. *)
Lemma processOrder_found deps orderId s w o :
  orders (db w) !! orderId = Some o ->
  (forall m, (processOrder deps orderId s w).1 <> Throw (NotFoundException m)) /\
  orders (db (processOrder deps orderId s w).2) !! orderId
  = Some (match (adjust (items o) (stock (db w))).1, commitFailure deps with
          | Return _, None => with_status s o
          | _, _ => o
          end).
Proof.
  intros Ho. unfold with_status. run_service. rewrite Ho. simp_sessions.
  pose proof (adjust_throws (items o) (stock (db w))) as Hthrow.
  case_adjust; simp_sessions.
  - destruct (commitFailure deps); simp_sessions.
    + destruct (abortAfterCommit deps); simp_sessions; by rewrite Ho.
    + destruct (sendOrderConfirmationEmail deps _); simp_sessions;
        [destruct (abortAfterCommit deps); simp_sessions|];
        by rewrite lookup_insert_eq.
  - destruct (Hthrow _ eq_refl) as [p ->]. by rewrite Ho.
Qed.

(** The database after a call whose transaction ended aborted. *)
Lemma processOrder_aborted_db deps orderId s w :
  txn <$> sessions (processOrder deps orderId s w).2 !! length (sessions w)
  = Some TRANSACTION_ABORTED ->
  db (processOrder deps orderId s w).2 = db w.
Proof.
  run_service.
  destruct (orders (db w) !! orderId) as [o|]; simp_sessions;
    [case_adjust; simp_sessions;
     [destruct (commitFailure deps); simp_sessions;
      [|destruct (sendOrderConfirmationEmail deps _); simp_sessions];
      try (destruct (abortAfterCommit deps); simp_sessions)|]
    |destruct (isObjectId orderId); simp_sessions];
    intros Ht; try discriminate; reflexivity.
Qed.

(** The read path looks at the committed database alone. *)
Lemma getOrderWithItemsById_run {P} (catalog : gmap string P) orderId w :
  (getOrderWithItemsById catalog orderId w).1
  = match orders (db w) !! orderId with
    | Some o => Return (populate_order catalog o)
    | None =>
        if isObjectId orderId
        then Throw (NotFoundException
                      ("Order with ID " +:+ orderId +:+ " not found"))
        else Throw (CastError orderId "_id")
    end.
Proof.
  unfold getOrderWithItemsById, findById_populate_lean. run_service.
  destruct (orders (db w) !! orderId); [done|].
  by destruct (isObjectId orderId).
Qed.

(** X1: the success path.  When the order exists, the stock covers its
    items, the commit is accepted and the notifier answers, the call
    resolves; the database holds the order with the target status and the
    decremented stock; the calls made are, in this order: open the session,
    start the transaction, update the order, update the inventory, commit,
    send the confirmation for the updated order, end the session. *)
Theorem processOrder_success deps orderId s w o :
  orders (db w) !! orderId = Some o ->
  (adjust (items o) (stock (db w))).1 = Return tt ->
  commitFailure deps = None ->
  sendOrderConfirmationEmail deps (with_status s o) = None ->
  (processOrder deps orderId s w).1 = Return tt /\
  db (processOrder deps orderId s w).2
  = mkDb (<[orderId := with_status s o]> (orders (db w)))
         (adjust (items o) (stock (db w))).2 /\
  trace (processOrder deps orderId s w).2
  = trace w ++ [EvStartSession (length (sessions w));
                EvStartTransaction (length (sessions w));
                EvFindOneAndUpdate orderId (length (sessions w));
                EvUpdateInventory (items o) (length (sessions w));
                EvCommitTransaction (length (sessions w));
                EvSendOrderConfirmationEmail (with_status s o);
                EvEndSession (length (sessions w))] /\
  last (log (processOrder deps orderId s w).2)
  = Some (LOG ("Order with ID " +:+ orderId +:+ " processed successfully")).
Proof.
  intros Ho Ha Hc Hm. unfold with_status in *.
  run_service. rewrite Ho. simp_sessions.
  case_adjust; [|discriminate]. simp_sessions.
  rewrite Hc. simp_sessions. cbn in Hm. rewrite Hm. simp_sessions.
  split_and!; try done.
  - by rewrite <- !app_assoc.
  - apply last_snoc.
Qed.

Lemma processOrder_success_witness :
  orders (db (demo_world PENDING 5)) !! "o1" = Some (demo_order PENDING) /\
  (adjust (items (demo_order PENDING)) (stock (db (demo_world PENDING 5)))).1
  = Return tt /\
  commitFailure quiet_deps = None /\
  sendOrderConfirmationEmail quiet_deps (with_status PAID (demo_order PENDING))
  = None /\
  (processOrder quiet_deps "o1" PAID (demo_world PENDING 5)).1 = Return tt.
Proof.
  repeat (split; [reflexivity|]).
  apply (processOrder_success quiet_deps "o1" PAID (demo_world PENDING 5)
           (demo_order PENDING)); reflexivity.
Defined.



(** X4: an aborted call is logged and re-raised.  If the transaction of
    the call ends aborted, the call rejects with an exception, the last
    entry of the log is the error entry carrying that same exception, and
    the database is the one before the call. *)
Theorem processOrder_abort_logged deps orderId s w :
  txn <$> sessions (processOrder deps orderId s w).2 !! length (sessions w)
  = Some TRANSACTION_ABORTED ->
  exists e,
    (processOrder deps orderId s w).1 = Throw e /\
    last (log (processOrder deps orderId s w).2)
    = Some (ERROR ("Failed to process order with ID: " +:+ orderId) e) /\
    db (processOrder deps orderId s w).2 = db w.
Proof.
  run_service.
  destruct (orders (db w) !! orderId) as [o|]; simp_sessions;
    [case_adjust; simp_sessions;
     [destruct (commitFailure deps); simp_sessions;
      [|destruct (sendOrderConfirmationEmail deps _); simp_sessions];
      try (destruct (abortAfterCommit deps); simp_sessions)|]
    |destruct (isObjectId orderId); simp_sessions];
    intros Ht; try discriminate;
    eexists; split_and!; try reflexivity; apply last_snoc.
Qed.

Lemma processOrder_abort_logged_witness :
  txn <$> sessions (processOrder quiet_deps "o1" PAID (demo_world PENDING 1)).2
            !! length (sessions (demo_world PENDING 1))
  = Some TRANSACTION_ABORTED /\
  exists e,
    (processOrder quiet_deps "o1" PAID (demo_world PENDING 1)).1 = Throw e /\
    last (log (processOrder quiet_deps "o1" PAID (demo_world PENDING 1)).2)
    = Some (ERROR ("Failed to process order with ID: " +:+ "o1") e) /\
    db (processOrder quiet_deps "o1" PAID (demo_world PENDING 1)).2
    = db (demo_world PENDING 1).
Proof.
  split; [reflexivity|].
  apply (processOrder_abort_logged quiet_deps "o1" PAID (demo_world PENDING 1)).
  reflexivity.
Defined.

(** X5: [processOrder] leaves the sessions that existed as they were and
    adds one, its own, which it leaves ended and with no transaction
    active. *)
Theorem processOrder_leaves_no_transaction deps orderId s w :
  exists ses,
    sessions (processOrder deps orderId s w).2 = sessions w ++ [ses] /\
    hasEnded ses = true /\
    txn_active (txn ses) = false.
Proof.
  run_service.
  destruct (orders (db w) !! orderId) as [o|]; simp_sessions;
    [case_adjust; simp_sessions;
     [destruct (commitFailure deps); simp_sessions;
      [|destruct (sendOrderConfirmationEmail deps _); simp_sessions];
      try (destruct (abortAfterCommit deps); simp_sessions)|]
    |destruct (isObjectId orderId); simp_sessions];
    eexists; split_and!; reflexivity.
Qed.

(** X6: [placeOrder] works outside any transaction and adds at most one
    order: it opens no session and leaves the stock alone; the orders of
    the store afterwards are either those it held, or those it held and
    the one new order, under an identity that was free; so every order the
    store held is still there, unchanged, and the store has grown by one
    order at most. *)
Theorem placeOrder_frame deps order customer w :
  sessions (placeOrder deps order customer w).2 = sessions w /\
  stock (db (placeOrder deps order customer w).2) = stock (db w) /\
  orders (db w) ⊆ orders (db (placeOrder deps order customer w).2) /\
  (orders (db (placeOrder deps order customer w).2) = orders (db w) \/
   orders (db w) !! _id (created_order deps order w) = None /\
   orders (db (placeOrder deps order customer w).2)
   = <[_id (created_order deps order w) := created_order deps order w]>
       (orders (db w))) /\
  (size (orders (db (placeOrder deps order customer w).2))
   <= S (size (orders (db w))))%nat.
Proof.
  unfold created_order. run_service.
  destruct (saveFailure deps _); simp_sessions;
    [split_and!; try done; [by left|lia]|].
  destruct (orders (db w) !! generateId deps (orders (db w))) eqn:Hid;
    simp_sessions; [split_and!; try done; [by left|lia]|].
  destruct (createPaymentIntent deps _ _ _); simp_sessions;
    (split_and!;
     [done|done|by apply insert_subseteq|by right
     |by rewrite map_size_insert_None]).
Qed.

(** X7: no deduplication.  Two calls of [placeOrder] that both resolve,
    even for the same request, leave two orders under two distinct
    identities, both in status PENDING. *)
Theorem placeOrder_twice deps order1 order2 customer1 customer2 w s1 s2 :
  (placeOrder deps order1 customer1 w).1 = Return s1 ->
  (placeOrder deps order2 customer2 (placeOrder deps order1 customer1 w).2).1
  = Return s2 ->
  let w1 := (placeOrder deps order1 customer1 w).2 in
  let w2 := (placeOrder deps order2 customer2 w1).2 in
  let o1 := created_order deps order1 w in
  let o2 := created_order deps order2 w1 in
  _id o1 <> _id o2 /\
  orders (db w2) !! _id o1 = Some o1 /\
  orders (db w2) !! _id o2 = Some o2 /\
  status o1 = PENDING /\ status o2 = PENDING.
Proof.
  intros H1 H2 w1 w2 o1 o2.
  assert (Hn2 : orders (db w1) !! _id o2 = None)
    by apply (placeOrder_stores deps order2 customer2 w1 s2 H2).
  assert (Hdb1 : db w1 = mkDb (<[_id o1 := o1]> (orders (db w))) (stock (db w)))
    by apply (placeOrder_stores deps order1 customer1 w s1 H1).
  assert (Hdb2 : db w2 = mkDb (<[_id o2 := o2]> (orders (db w1))) (stock (db w1)))
    by apply (placeOrder_stores deps order2 customer2 w1 s2 H2).
  assert (Hs1 : status o1 = PENDING) by reflexivity.
  assert (Hs2 : status o2 = PENDING) by reflexivity.
  clearbody w1 w2 o1 o2.
  rewrite Hdb1 in Hn2, Hdb2. rewrite Hdb2. cbn in *.
  assert (Hne : _id o1 <> _id o2).
  { intros Heq. rewrite <- Heq, lookup_insert_eq in Hn2. discriminate. }
  split_and!; try done.
  - rewrite lookup_insert_ne, lookup_insert_eq; done.
  - by rewrite lookup_insert_eq.
Qed.

Lemma placeOrder_twice_witness :
  let w := demo_world PENDING 5 in
  (placeOrder counting_deps demo_dto "cus_1" w).1 = Return "pi_1_secret" /\
  (placeOrder counting_deps demo_dto "cus_1"
     (placeOrder counting_deps demo_dto "cus_1" w).2).1 = Return "pi_1_secret" /\
  _id (created_order counting_deps demo_dto w)
  <> _id (created_order counting_deps demo_dto
            (placeOrder counting_deps demo_dto "cus_1" w).2).
Proof.
  intros w. split; [reflexivity|]. split; [reflexivity|].
  apply (placeOrder_twice counting_deps demo_dto demo_dto "cus_1" "cus_1" w
           "pi_1_secret" "pi_1_secret"); reflexivity.
Defined.

(** X8: an order that [placeOrder] has stored is found by [processOrder]:
    the call for its identity never rejects with NotFound, and the order
    ends in the target status when the transaction commits and stays
    PENDING otherwise, with the line items and the amount of the request. *)
Theorem placeOrder_then_processOrder deps order customer w secret s :
  (placeOrder deps order customer w).1 = Return secret ->
  let w1 := (placeOrder deps order customer w).2 in
  let o := created_order deps order w in
  (forall m, (processOrder deps (_id o) s w1).1 <> Throw (NotFoundException m)) /\
  orders (db (processOrder deps (_id o) s w1).2) !! _id o
  = Some {| _id := _id o;
            items := dto_items order;
            amount := dto_amount order;
            status :=
              match (adjust (dto_items order) (stock (db w))).1,
                    commitFailure deps with
              | Return _, None => s
              | _, _ => PENDING
              end |}.
Proof.
  intros H1 w1 o.
  destruct (placeOrder_stores deps order customer w secret H1) as [_ Hdb].
  fold w1 o in Hdb.
  assert (Ho : orders (db w1) !! _id o = Some o)
    by (rewrite Hdb; apply lookup_insert_eq).
  destruct (processOrder_found deps (_id o) s w1 o Ho) as [Hnf Hst].
  split; [exact Hnf|].
  rewrite Hst, Hdb. cbn.
  destruct (adjust (dto_items order) (stock (db w))) as [[[]|e] st'];
    cbn; [destruct (commitFailure deps)|]; reflexivity.
Qed.

Lemma placeOrder_then_processOrder_witness :
  let w := demo_world PENDING 5 in
  (placeOrder quiet_deps demo_dto "cus_1" w).1 = Return "pi_1_secret" /\
  orders (db (processOrder quiet_deps
                (_id (created_order quiet_deps demo_dto w)) PAID
                (placeOrder quiet_deps demo_dto "cus_1" w).2).2)
    !! _id (created_order quiet_deps demo_dto w)
  = Some {| _id := _id (created_order quiet_deps demo_dto w);
            items := dto_items demo_dto;
            amount := dto_amount demo_dto;
            status :=
              match (adjust (dto_items demo_dto) (stock (db w))).1,
                    commitFailure quiet_deps with
              | Return _, None => PAID
              | _, _ => PENDING
              end |}.
Proof.
  intros w. split; [reflexivity|].
  apply (placeOrder_then_processOrder quiet_deps demo_dto "cus_1" w
           "pi_1_secret" PAID).
  reflexivity.
Defined.

(** X9: an order that [placeOrder] has stored is read back by
    [getOrderWithItemsById]: the call resolves to the order of the request,
    populated, in status PENDING. *)
Theorem placeOrder_then_getOrder {P} deps (catalog : gmap string P)
    order customer w secret :
  (placeOrder deps order customer w).1 = Return secret ->
  (getOrderWithItemsById catalog (_id (created_order deps order w))
     (placeOrder deps order customer w).2).1
  = Return (populate_order catalog (created_order deps order w)) /\
  po_status (populate_order catalog (created_order deps order w)) = PENDING /\
  po_amount (populate_order catalog (created_order deps order w))
  = dto_amount order.
Proof.
  intros H1.
  destruct (placeOrder_stores deps order customer w secret H1) as [_ Hdb].
  rewrite getOrderWithItemsById_run, Hdb. cbn.
  by rewrite lookup_insert_eq.
Qed.

Lemma placeOrder_then_getOrder_witness :
  let w := demo_world PENDING 5 in
  (placeOrder quiet_deps demo_dto "cus_1" w).1 = Return "pi_1_secret" /\
  (getOrderWithItemsById demo_catalog (_id (created_order quiet_deps demo_dto w))
     (placeOrder quiet_deps demo_dto "cus_1" w).2).1
  = Return (populate_order demo_catalog (created_order quiet_deps demo_dto w)).
Proof.
  intros w. split; [reflexivity|].
  apply (placeOrder_then_getOrder quiet_deps demo_catalog demo_dto "cus_1" w
           "pi_1_secret").
  reflexivity.
Defined.


Example getOrderWithItemsById_malformed_id :
  (getOrderWithItemsById demo_catalog "o7" (demo_world PENDING 5)).1
  = Throw (CastError "o7" "_id") /\
  (getOrderWithItemsById demo_catalog absent_id (demo_world PENDING 5)).1
  = Throw (NotFoundException
             "Order with ID 64b7f0c2a1d3e4f5a6b7c8d9 not found").
Proof. vm_compute. split; reflexivity. Qed.

(** X11: a reader never sees the writes of an aborted call.  If the
    transaction of [processOrder] ends aborted, [getOrderWithItemsById]
    gives after the call, for every identity, what it gave before. *)
Theorem aborted_processOrder_invisible {P} deps (catalog : gmap string P)
    orderId s w id' :
  txn <$> sessions (processOrder deps orderId s w).2 !! length (sessions w)
  = Some TRANSACTION_ABORTED ->
  (getOrderWithItemsById catalog id' (processOrder deps orderId s w).2).1
  = (getOrderWithItemsById catalog id' w).1.
Proof.
  intros Ht. rewrite !getOrderWithItemsById_run.
  by rewrite (processOrder_aborted_db deps orderId s w Ht).
Qed.

Lemma aborted_processOrder_invisible_witness :
  txn <$> sessions (processOrder quiet_deps "o1" PAID (demo_world PENDING 1)).2
            !! length (sessions (demo_world PENDING 1))
  = Some TRANSACTION_ABORTED /\
  (getOrderWithItemsById demo_catalog "o1"
     (processOrder quiet_deps "o1" PAID (demo_world PENDING 1)).2).1
  = (getOrderWithItemsById demo_catalog "o1" (demo_world PENDING 1)).1.
Proof.
  split; [reflexivity|].
  apply (aborted_processOrder_invisible quiet_deps demo_catalog "o1" PAID
           (demo_world PENDING 1) "o1").
  reflexivity.
Defined.

End OrderTheorems.

(** ** The cart services at work *)

Example addItem_new_user :
  CartService0.addItem (fun _ => "c2") user_oid
    (CartModel.mkItem product_oid 2) demo_store
  = (Return (CartModel.mkCart "c2" user_oid [CartModel.mkItem product_oid 2] []),
     CartModel.mkStore
       [demo_cart;
        CartModel.mkCart "c2" user_oid [CartModel.mkItem product_oid 2] []]
       (CartModel.products demo_store)).
Proof. vm_compute. reflexivity. Qed.

(** A user or a product that is no ObjectId is refused, and so is an
    identity already taken. *)
Example addItem_refused :
  CartService0.addItem (fun _ => "c2") "u2" (CartModel.mkItem product_oid 2)
    demo_store
  = (Throw (CastError "u2" "customer"), demo_store) /\
  CartService0.addItem (fun _ => "c2") user_oid (CartModel.mkItem "p1" 2)
    demo_store
  = (Throw (ValidationError "items"), demo_store) /\
  CartService0.addItem (fun _ => "c1") user_oid
    (CartModel.mkItem product_oid 2) demo_store
  = (Throw (MongoError "E11000 duplicate key error"), demo_store).
Proof. vm_compute. split_and!; reflexivity. Qed.

(** Another spelling of a product the cart holds is not recognised by the
    comparison and is cast to the same reference by [push]: the cart ends
    with two lines for one product. *)
Example addItem_other_spelling :
  let st := (CartService0.addItem (fun _ => "c2") user_oid
               (CartModel.mkItem product_oid 2) demo_store).2 in
  (CartService0.addItem (fun _ => "c3") user_oid
     (CartModel.mkItem product_oid_upper 5) st).1
  = Return (CartModel.mkCart "c2" user_oid
              [CartModel.mkItem product_oid 2; CartModel.mkItem product_oid 5]
              []).
Proof. vm_compute. reflexivity. Qed.

Example addItem_known_item :
  (CartService0.addItem (fun _ => "c2") "u1" (CartModel.mkItem "p1" 9)
     demo_store).1
  = Return demo_cart.
Proof. reflexivity. Qed.

(** The message of [removeItem] names the cart, not the item. *)
Example removeItem_missing :
  (CartService0.removeItem "c1" "p9" demo_store).1
  = Throw (NotFoundException "Item with ID c1 not found in cart").
Proof. reflexivity. Qed.

Example updateItemQuantity_second :
  (CartService1.updateItemQuantityInCart "c1" "p2" (CartModel.mkUpdateItem 7)
     demo_store).1
  = Return (CartModel.mkCart "c1" "u1"
              [CartModel.mkItem "p1" 1; CartModel.mkItem "p2" 7] ["standard"]).
Proof. reflexivity. Qed.

(** Options already on the cart are skipped; a repetition inside the
    request is not. *)
Example addShippingOption_repeats :
  CartModel.shipping <$>
    ((fun r => match r with Return c => Some c | Throw _ => None end)
       (CartService0.addShippingOption "c1"
          (CartModel.mkAddShipping ["standard"; "express"; "express"])
          demo_store).1)
  = Some ["standard"; "express"; "express"].
Proof. reflexivity. Qed.

Example getWithItemsById_populates :
  (CartService0.getWithItemsById "c1" demo_store).1
  = Return (CartModel.mkPopulatedCart "c1" "u1"
              [CartModel.mkPopulatedItem
                 (Some (CartModel.mkProduct "p1" "Ring")) 1;
               CartModel.mkPopulatedItem None 4]
              ["standard"]).
Proof. vm_compute. reflexivity. Qed.

(** ** The two cart services agree *)

(** The private helpers first: the public methods call them. *)
Lemma getByIdOrThrow_agree i :
  CartService0.getByIdOrThrow i = CartService1.getCartByIdOrThrow i.
Proof.
  unfold CartService0.getByIdOrThrow, CartService1.getCartByIdOrThrow.
  reflexivity.
Qed.

Lemma createWithItem_agree generateId userId newItem st :
  CartService0.createWithItem generateId userId newItem st
  = CartService1.createCartWithItem generateId userId newItem st.
Proof.
  unfold CartService0.createWithItem, CartService1.createCartWithItem.
  reflexivity.
Qed.

Lemma addItemToExisting_agree existingCart newItem st :
  CartService0.addItemToExisting existingCart newItem st
  = CartService1.addItemToExistingCart existingCart newItem st.
Proof.
  unfold CartService0.addItemToExisting, CartService1.addItemToExistingCart.
  destruct (negb _); [|reflexivity].
  by destruct (CartModel.cast_item newItem).
Qed.

(** C10: the two versions of [CartService] differ in the names of their
    methods only.  On every store and every input, corresponding public
    methods give the same completion (the same value, or the same
    NotFound exception with the same message) and leave the same store. *)
Theorem cart_services_equivalent
    (generateId : list CartModel.CartDocument -> string)
    (st : CartModel.Store) :
  (forall i, CartService0.getById i st = CartService1.getCartById i st) /\
  (forall i,
     CartService0.getWithItemsById i st
     = CartService1.getCartWithItemsById i st) /\
  (forall userId,
     CartService0.getWithItemsByUserId userId st
     = CartService1.getWithItemsByUserId userId st) /\
  (forall userId newItem,
     CartService0.addItem generateId userId newItem st
     = CartService1.addItemToCart generateId userId newItem st) /\
  (forall i updateItem,
     CartService0.updateItem i updateItem st
     = CartService1.updateItemInCart i updateItem st) /\
  (forall i itemId,
     CartService0.removeItem i itemId st
     = CartService1.removeItemFromCart i itemId st) /\
  (forall i itemId updateItem,
     CartService0.updateItemQuantity i itemId updateItem st
     = CartService1.updateItemQuantityInCart i itemId updateItem st) /\
  (forall i shippingOption,
     CartService0.addShippingOption i shippingOption st
     = CartService1.addShippingToCart i shippingOption st) /\
  (forall i shippingOption,
     CartService0.removeShippingOption i shippingOption st
     = CartService1.removeShippingInCart i shippingOption st) /\
  (forall i, CartService0.remove i st = CartService1.removeCart i st).
Proof.
  split_and!; intros.
  - unfold CartService0.getById, CartService1.getCartById. reflexivity.
  - unfold CartService0.getWithItemsById, CartService1.getCartWithItemsById.
    reflexivity.
  - unfold CartService0.getWithItemsByUserId,
      CartService1.getWithItemsByUserId. reflexivity.
  - unfold CartService0.addItem, CartService1.addItemToCart.
    unfold CartModel.bind.
    destruct (CartModel.findOne_customer userId st) as [[[c|]|e] st'];
      [apply addItemToExisting_agree|apply createWithItem_agree|reflexivity].
  - unfold CartService0.updateItem, CartService1.updateItemInCart.
    by rewrite getByIdOrThrow_agree.
  - unfold CartService0.removeItem, CartService1.removeItemFromCart.
    by rewrite getByIdOrThrow_agree.
  - unfold CartService0.updateItemQuantity,
      CartService1.updateItemQuantityInCart.
    by rewrite getByIdOrThrow_agree.
  - unfold CartService0.addShippingOption, CartService1.addShippingToCart.
    by rewrite getByIdOrThrow_agree.
  - unfold CartService0.removeShippingOption,
      CartService1.removeShippingInCart.
    by rewrite getByIdOrThrow_agree.
  - unfold CartService0.remove, CartService1.removeCart. reflexivity.
Qed.

(** ** Further properties of the cart services *)

Section CartTheorems.

Import -(notations) CartModel.

(** *** Arrays *)

Lemma findIndex_lower {A} (p : A -> bool) l : -1 <= findIndex p l.
Proof.
  induction l as [|x l IH]; simpl; [lia|].
  destruct (p x); [lia|]. destruct (Z.eqb_spec (findIndex p l) (-1)); lia.
Qed.

(** [findIndex] gives [-1] exactly when nothing qualifies; otherwise it
    points at the first qualifying element. *)
Lemma findIndex_none {A} (p : A -> bool) l :
  findIndex p l = -1 <-> existsb p l = false.
Proof.
  induction l as [|x l IH]; simpl; [done|].
  destruct (p x); simpl; [split; [lia|discriminate]|].
  destruct (Z.eqb_spec (findIndex p l) (-1)) as [E|E].
  - rewrite <- IH. done.
  - pose proof (findIndex_lower p l).
    split; [lia|]. intros Hex. apply IH in Hex. lia.
Qed.

Lemma findIndex_split {A} (p : A -> bool) l :
  findIndex p l <> -1 ->
  exists l1 x l2,
    l = l1 ++ x :: l2 /\ p x = true /\ existsb p l1 = false /\
    Z.to_nat (findIndex p l) = length l1.
Proof.
  induction l as [|x l IH]; simpl; [done|].
  destruct (p x) eqn:Hp.
  - intros _. by exists [], x, l.
  - destruct (Z.eqb_spec (findIndex p l) (-1)) as [E|E]; [done|].
    intros _. destruct (IH E) as (l1 & y & l2 & -> & Hy & Hl1 & Hlen).
    exists (x :: l1), y, l2. simpl. rewrite Hp. split_and!; try done.
    pose proof (findIndex_lower p (l1 ++ y :: l2)). lia.
Qed.

Lemma find_split {A} (p : A -> bool) l x :
  List.find p l = Some x ->
  exists l1 l2, l = l1 ++ x :: l2 /\ p x = true /\ existsb p l1 = false.
Proof.
  induction l as [|y l IH]; simpl; [done|].
  destruct (p y) eqn:Hp.
  - intros [= ->]. by exists [], l.
  - intros H. destruct (IH H) as (l1 & l2 & -> & Hx & Hl1).
    exists (y :: l1), l2. simpl. by rewrite Hp.
Qed.

Lemma find_none_existsb {A} (p : A -> bool) l :
  List.find p l = None <-> existsb p l = false.
Proof.
  induction l as [|y l IH]; simpl; [done|].
  destruct (p y); simpl; [split; discriminate|done].
Qed.

Lemma existsb_id_In (l : list ItemDto) i :
  existsb (fun it => String.eqb (id it) i) l = true <-> In i (id <$> l).
Proof.
  rewrite existsb_exists, <- list_elem_of_In, list_elem_of_fmap.
  split.
  - intros (x & Hx & He). apply String.eqb_eq in He. exists x.
    by rewrite <- list_elem_of_In in Hx.
  - intros (x & -> & Hx). exists x. rewrite String.eqb_refl.
    by rewrite <- list_elem_of_In.
Qed.

Lemma existsb_eqb_In (l : list string) x :
  existsb (String.eqb x) l = true <-> In x l.
Proof.
  rewrite existsb_exists. split.
  - intros (y & Hy & He). apply String.eqb_eq in He. by subst.
  - intros H. exists x. by rewrite String.eqb_refl.
Qed.

Lemma assign_quantity_split (p : ItemDto -> bool) q l1 x l2 :
  existsb p l1 = false -> p x = true ->
  assign_quantity p q (l1 ++ x :: l2) = l1 ++ mkItem (id x) q :: l2.
Proof.
  induction l1 as [|y l1 IH]; simpl.
  - intros _ ->. done.
  - destruct (p y); simpl; [discriminate|]. intros H1 H2. by rewrite IH.
Qed.

(** *** The collection *)

Lemma find_by_id_Some i l c :
  List.find (fun c => String.eqb (_id c) i) l = Some c -> _id c = i.
Proof.
  intros H. apply find_some in H as [_ H]. by apply String.eqb_eq.
Qed.

(** A saved document is the one [findById] gives next. *)
Lemma find_replace_cart_eq c l c0 :
  List.find (fun x => String.eqb (_id x) (_id c)) l = Some c0 ->
  List.find (fun x => String.eqb (_id x) (_id c)) (replace_cart c l) = Some c.
Proof.
  induction l as [|x l IH]; simpl; [done|].
  destruct (String.eqb (_id x) (_id c)) eqn:E; simpl.
  - by rewrite String.eqb_refl.
  - by rewrite E.
Qed.

Lemma find_replace_cart_ne c l j :
  j <> _id c ->
  List.find (fun x => String.eqb (_id x) j) (replace_cart c l)
  = List.find (fun x => String.eqb (_id x) j) l.
Proof.
  intros Hne. induction l as [|x l IH]; simpl; [done|].
  destruct (String.eqb (_id x) (_id c)) eqn:E; simpl.
  - apply String.eqb_eq in E.
    assert (String.eqb (_id c) j = false) as ->
      by (apply String.eqb_neq; congruence).
    assert (String.eqb (_id x) j = false) as ->
      by (apply String.eqb_neq; congruence).
    done.
  - destruct (String.eqb (_id x) j); [done|apply IH].
Qed.

(** Saving over the document that [findById] gave restores the
    collection. *)
Lemma replace_cart_found c0 c l :
  _id c = _id c0 ->
  List.find (fun x => String.eqb (_id x) (_id c0)) l = Some c0 ->
  replace_cart c0 (replace_cart c l) = l.
Proof.
  intros Hid. induction l as [|x l IH]; simpl; [done|].
  rewrite Hid.
  destruct (String.eqb (_id x) (_id c0)) eqn:E.
  - intros [= ->]. simpl. by rewrite Hid, String.eqb_refl.
  - intros H. simpl. by rewrite E, IH.
Qed.

Lemma replace_cart_twice c c' l :
  _id c = _id c' ->
  replace_cart c (replace_cart c' l) = replace_cart c l.
Proof.
  intros Hid. induction l as [|x l IH]; simpl; [done|].
  rewrite <- Hid.
  destruct (String.eqb (_id x) (_id c)) eqn:E; simpl.
  - by rewrite Hid, String.eqb_refl.
  - by rewrite E, IH.
Qed.


Lemma find_delete_cart_ne l i j :
  j <> i ->
  List.find (fun x => String.eqb (_id x) j) (delete_cart i l)
  = List.find (fun x => String.eqb (_id x) j) l.
Proof.
  intros Hne. induction l as [|x l IH]; simpl; [done|].
  destruct (String.eqb (_id x) i) eqn:E; simpl.
  - apply String.eqb_eq in E.
    assert (String.eqb (_id x) j = false) as ->
      by (apply String.eqb_neq; congruence).
    done.
  - destruct (String.eqb (_id x) j); [done|exact IH].
Qed.

(** *** The services *)

Ltac unfold_cart :=
  unfold CartService0.getById, CartService0.getWithItemsById,
    CartService0.getWithItemsByUserId, CartService0.addItem,
    CartService0.createWithItem, CartService0.addItemToExisting,
    CartService0.updateItem, CartService0.removeItem,
    CartService0.updateItemQuantity, CartService0.addShippingOption,
    CartService0.removeShippingOption, CartService0.remove,
    CartService0.getByIdOrThrow,
    CartService1.getCartById, CartService1.getCartWithItemsById,
    CartService1.getWithItemsByUserId, CartService1.addItemToCart,
    CartService1.createCartWithItem, CartService1.addItemToExistingCart,
    CartService1.updateItemInCart, CartService1.removeItemFromCart,
    CartService1.updateItemQuantityInCart, CartService1.addShippingToCart,
    CartService1.removeShippingInCart, CartService1.removeCart,
    CartService1.getCartByIdOrThrow,
    bind, ret, throw, findById, findOne_customer, populate, save,
    findByIdAndDelete, create_and_save.

Local Arguments String.append : simpl never.
Local Arguments includes : simpl never.
Local Arguments isObjectId : simpl never.
Local Arguments castObjectId : simpl never.
Local Arguments indexOf : simpl never.

(** X12: an operation of the cart service that rejects has written
    nothing: for the methods that change a cart by its identity and for
    [remove], a rejected call leaves the store as it was. *)
Theorem cart_failures_leave_store st i item itemId upd addDto rmDto :
  (is_throw (CartService0.updateItem i item st).1 = true ->
   (CartService0.updateItem i item st).2 = st) /\
  (is_throw (CartService0.removeItem i itemId st).1 = true ->
   (CartService0.removeItem i itemId st).2 = st) /\
  (is_throw (CartService0.updateItemQuantity i itemId upd st).1 = true ->
   (CartService0.updateItemQuantity i itemId upd st).2 = st) /\
  (is_throw (CartService0.addShippingOption i addDto st).1 = true ->
   (CartService0.addShippingOption i addDto st).2 = st) /\
  (is_throw (CartService0.removeShippingOption i rmDto st).1 = true ->
   (CartService0.removeShippingOption i rmDto st).2 = st) /\
  (is_throw (CartService0.remove i st).1 = true ->
   (CartService0.remove i st).2 = st).
Proof.
  split_and!; unfold_cart; cbn;
    destruct (List.find _ (carts st)) as [c0|]; cbn; try done.
  - by destruct (_ =? _)%Z.
  - by destruct (_ =? _)%Z.
  - by destruct (List.find _ (items c0)).
  - by destruct (_ >? _)%Z.
Qed.

(** X13: read your writes.  When a method that changes a cart by its
    identity resolves, [getById] for that identity gives, on the store it
    leaves, the very cart it returned. *)
Theorem cart_read_your_writes st i item itemId upd addDto rmDto c :
  ((CartService0.updateItem i item st).1 = Return c ->
   (CartService0.getById i (CartService0.updateItem i item st).2).1
   = Return c) /\
  ((CartService0.removeItem i itemId st).1 = Return c ->
   (CartService0.getById i (CartService0.removeItem i itemId st).2).1
   = Return c) /\
  ((CartService0.updateItemQuantity i itemId upd st).1 = Return c ->
   (CartService0.getById i
      (CartService0.updateItemQuantity i itemId upd st).2).1
   = Return c) /\
  ((CartService0.addShippingOption i addDto st).1 = Return c ->
   (CartService0.getById i (CartService0.addShippingOption i addDto st).2).1
   = Return c) /\
  ((CartService0.removeShippingOption i rmDto st).1 = Return c ->
   (CartService0.getById i
      (CartService0.removeShippingOption i rmDto st).2).1
   = Return c).
Proof.
  assert (Hsaved : forall c0 c',
    List.find (fun x => String.eqb (_id x) i) (carts st) = Some c0 ->
    _id c' = _id c0 ->
    List.find (fun x => String.eqb (_id x) i) (replace_cart c' (carts st))
    = Some c').
  { intros c0 c' Hf Hid. pose proof (find_by_id_Some _ _ _ Hf) as <-.
    rewrite <- Hid in *. by eapply find_replace_cart_eq. }
  split_and!; unfold_cart; cbn;
    destruct (List.find _ (carts st)) as [c0|] eqn:Hf; cbn; try done.
  - destruct (_ =? _)%Z; cbn; [done|]. intros [= <-].
    by rewrite (Hsaved c0).
  - destruct (_ =? _)%Z; cbn; [done|]. intros [= <-].
    by rewrite (Hsaved c0).
  - destruct (List.find _ (items c0)); cbn; [|done]. intros [= <-].
    by rewrite (Hsaved c0).
  - intros [= <-]. by rewrite (Hsaved c0).
  - destruct (_ >? _)%Z; cbn; [|done]. intros [= <-].
    by rewrite (Hsaved c0).
Qed.

(** Writes aimed at one identity do not show under another. *)
Lemma cart_others_frame st i j item itemId upd addDto rmDto :
  j <> i ->
  (CartService0.getById j (CartService0.updateItem i item st).2).1
  = (CartService0.getById j st).1 /\
  (CartService0.getById j (CartService0.removeItem i itemId st).2).1
  = (CartService0.getById j st).1 /\
  (CartService0.getById j (CartService0.updateItemQuantity i itemId upd st).2).1
  = (CartService0.getById j st).1 /\
  (CartService0.getById j (CartService0.addShippingOption i addDto st).2).1
  = (CartService0.getById j st).1 /\
  (CartService0.getById j (CartService0.removeShippingOption i rmDto st).2).1
  = (CartService0.getById j st).1 /\
  (CartService0.getById j (CartService0.remove i st).2).1
  = (CartService0.getById j st).1.
Proof.
  intros Hne.
  assert (Hsaved : forall c0 c',
    List.find (fun x => String.eqb (_id x) i) (carts st) = Some c0 ->
    _id c' = _id c0 ->
    List.find (fun x => String.eqb (_id x) j) (replace_cart c' (carts st))
    = List.find (fun x => String.eqb (_id x) j) (carts st)).
  { intros c0 c' Hf Hid. apply find_replace_cart_ne.
    rewrite Hid, (find_by_id_Some _ _ _ Hf). done. }
  pose proof (find_delete_cart_ne (carts st) i j Hne) as Hdel.
  split_and!; unfold_cart; cbn;
    destruct (List.find (fun x => String.eqb (_id x) i) (carts st))
      as [c0|] eqn:Hf; cbn; try done.
  - destruct (_ =? _)%Z; cbn; [done|].
    rewrite (Hsaved c0) by done. by destruct (List.find (fun x => String.eqb (_id x) j) (carts st)).
  - destruct (_ =? _)%Z; cbn; [done|].
    rewrite (Hsaved c0) by done. by destruct (List.find (fun x => String.eqb (_id x) j) (carts st)).
  - destruct (List.find _ (items c0)); cbn; [|done].
    rewrite (Hsaved c0) by done. by destruct (List.find (fun x => String.eqb (_id x) j) (carts st)).
  - rewrite (Hsaved c0) by done. by destruct (List.find (fun x => String.eqb (_id x) j) (carts st)).
  - destruct (_ >? _)%Z; cbn; [|done].
    rewrite (Hsaved c0) by done. by destruct (List.find (fun x => String.eqb (_id x) j) (carts st)).
  - rewrite Hdel. by destruct (List.find (fun x => String.eqb (_id x) j) (carts st)).
Qed.

(** X14: the other carts are left alone.  For two carts of the store with
    distinct identities, after any method that changes or deletes the
    first, [getById] still gives the second as it was. *)
Theorem cart_others_untouched st i j ci cj item itemId upd addDto rmDto :
  (CartService0.getById i st).1 = Return ci ->
  (CartService0.getById j st).1 = Return cj ->
  _id ci <> _id cj ->
  (CartService0.getById j (CartService0.updateItem i item st).2).1
  = Return cj /\
  (CartService0.getById j (CartService0.removeItem i itemId st).2).1
  = Return cj /\
  (CartService0.getById j (CartService0.updateItemQuantity i itemId upd st).2).1
  = Return cj /\
  (CartService0.getById j (CartService0.addShippingOption i addDto st).2).1
  = Return cj /\
  (CartService0.getById j (CartService0.removeShippingOption i rmDto st).2).1
  = Return cj /\
  (CartService0.getById j (CartService0.remove i st).2).1
  = Return cj.
Proof.
  intros Hi Hj Hne.
  assert (Hij : j <> i).
  { revert Hi Hj. unfold_cart; cbn.
    destruct (List.find (fun c => String.eqb (_id c) i) (carts st))
      as [c|] eqn:Hfi; cbn; [|done].
    destruct (List.find (fun c => String.eqb (_id c) j) (carts st))
      as [c'|] eqn:Hfj; cbn; [|done].
    intros [= ->] [= ->].
    apply find_by_id_Some in Hfi, Hfj. congruence. }
  rewrite <- Hj.
  apply (cart_others_frame st i j item itemId upd addDto rmDto Hij).
Qed.

Lemma cart_others_untouched_witness :
  (CartService0.getById "c1" demo_store2).1 = Return demo_cart /\
  (CartService0.getById "c2" demo_store2).1 = Return demo_cart2 /\
  _id demo_cart <> _id demo_cart2 /\
  (CartService0.getById "c2"
     (CartService0.updateItem "c1" (mkItem "p1" 3) demo_store2).2).1
  = Return demo_cart2 /\
  (CartService0.updateItem "c1" (mkItem "p1" 3) demo_store2).1
  = Return (mkCart "c1" "u1" [mkItem "p1" 3; mkItem "p2" 4] ["standard"]).
Proof.
  split; [reflexivity|]. split; [reflexivity|]. split; [done|].
  split; [|reflexivity].
  apply (cart_others_untouched demo_store2 "c1" "c2" demo_cart demo_cart2
           (mkItem "p1" 3) "p1" (mkUpdateItem 1) (mkAddShipping [])
           (mkRemoveShipping "standard")); [reflexivity|reflexivity|done].
Defined.

(** X15: [updateItem] replaces, at its position, the first item of the
    cart that has the identity of the new item; the items before and after
    it, the list of item identities, the customer and the shipping options
    are kept. *)
Theorem updateItem_replaces_in_place st i item c0 c' :
  (CartService0.getById i st).1 = Return c0 ->
  (CartService0.updateItem i item st).1 = Return c' ->
  exists l1 x l2,
    items c0 = l1 ++ x :: l2 /\
    id x = id item /\ ~ In (id item) (id <$> l1) /\
    items c' = l1 ++ item :: l2 /\
    item_ids c' = item_ids c0 /\
    _id c' = _id c0 /\ customer c' = customer c0 /\ shipping c' = shipping c0.
Proof.
  unfold_cart; cbn.
  destruct (List.find _ (carts st)) as [c|]; cbn; [|done].
  intros [= ->].
  destruct (Z.eqb_spec (findIndex (fun x => String.eqb (id x) (id item))
                          (items c0)) (-1)) as [E|E]; cbn; [done|].
  intros [= <-].
  destruct (findIndex_split _ _ E) as (l1 & x & l2 & Hl & Hx & Hl1 & Hlen).
  apply String.eqb_eq in Hx.
  exists l1, x, l2. unfold item_ids. cbn. rewrite Hlen, Hl.
  assert (Hins : <[length l1 := item]> (l1 ++ x :: l2) = l1 ++ item :: l2).
  { rewrite insert_app_r_alt by lia. by rewrite Nat.sub_diag. }
  rewrite Hins. split_and!; try done.
  - rewrite <- existsb_id_In. by rewrite Hl1.
  - rewrite !fmap_app, !fmap_cons. by rewrite Hx.
Qed.

Lemma updateItem_replaces_in_place_witness :
  (CartService0.getById "c1" demo_store).1 = Return demo_cart /\
  (CartService0.updateItem "c1" (mkItem "p2" 9) demo_store).1
  = Return (mkCart "c1" "u1" [mkItem "p1" 1; mkItem "p2" 9] ["standard"]) /\
  exists l1 x l2,
    items demo_cart = l1 ++ x :: l2 /\
    id x = id (mkItem "p2" 9) /\ ~ In (id (mkItem "p2" 9)) (id <$> l1) /\
    items (mkCart "c1" "u1" [mkItem "p1" 1; mkItem "p2" 9] ["standard"])
    = l1 ++ mkItem "p2" 9 :: l2.
Proof.
  split; [reflexivity|]. split; [reflexivity|].
  destruct (updateItem_replaces_in_place demo_store "c1" (mkItem "p2" 9)
              demo_cart
              (mkCart "c1" "u1" [mkItem "p1" 1; mkItem "p2" 9] ["standard"])
              eq_refl eq_refl)
    as (l1 & x & l2 & H1 & H2 & H3 & H4 & _).
  by exists l1, x, l2.
Defined.

(** X16: [removeItem] takes out the first item of the cart that has the
    identity asked for and nothing else; if no two items of the cart share
    an identity, the identity is gone from the cart. *)
Theorem removeItem_removes_first st i itemId c0 c' :
  (CartService0.getById i st).1 = Return c0 ->
  (CartService0.removeItem i itemId st).1 = Return c' ->
  exists l1 x l2,
    items c0 = l1 ++ x :: l2 /\
    id x = itemId /\ ~ In itemId (id <$> l1) /\
    items c' = l1 ++ l2 /\
    (NoDup (item_ids c0) -> ~ In itemId (item_ids c')) /\
    _id c' = _id c0 /\ customer c' = customer c0 /\ shipping c' = shipping c0.
Proof.
  unfold_cart; cbn.
  destruct (List.find _ (carts st)) as [c|]; cbn; [|done].
  intros [= ->].
  destruct (Z.eqb_spec (findIndex (fun x => String.eqb (id x) itemId)
                          (items c0)) (-1)) as [E|E]; cbn; [done|].
  intros [= <-].
  destruct (findIndex_split _ _ E) as (l1 & x & l2 & Hl & Hx & Hl1 & Hlen).
  apply String.eqb_eq in Hx.
  assert (Hnot : ~ In itemId (id <$> l1))
    by (rewrite <- existsb_id_In; by rewrite Hl1).
  exists l1, x, l2. unfold item_ids, splice1. cbn. rewrite Hlen, Hl.
  rewrite delete_middle. split_and!; try done.
  rewrite !fmap_app, fmap_cons, Hx.
  intros Hnd Hin. apply NoDup_app in Hnd as (_ & Hdis & Hnd).
  apply NoDup_cons in Hnd as [Hx2 _].
  apply in_app_or in Hin as [Hin|Hin]; [done|].
  apply Hx2. by apply list_elem_of_In.
Qed.

Lemma removeItem_removes_first_witness :
  (CartService0.getById "c1" demo_store).1 = Return demo_cart /\
  (CartService0.removeItem "c1" "p1" demo_store).1
  = Return (mkCart "c1" "u1" [mkItem "p2" 4] ["standard"]) /\
  exists l1 x l2,
    items demo_cart = l1 ++ x :: l2 /\
    id x = "p1" /\ ~ In "p1" (id <$> l1) /\
    items (mkCart "c1" "u1" [mkItem "p2" 4] ["standard"]) = l1 ++ l2.
Proof.
  split; [reflexivity|]. split; [reflexivity|].
  destruct (removeItem_removes_first demo_store "c1" "p1" demo_cart
              (mkCart "c1" "u1" [mkItem "p2" 4] ["standard"])
              eq_refl eq_refl)
    as (l1 & x & l2 & H1 & H2 & H3 & H4 & _).
  by exists l1, x, l2.
Defined.

(** X17: [updateItemQuantity] sets the quantity of the first item of the
    cart that has the identity asked for, and changes nothing else: the
    other items, the order of the items and their identities are kept. *)
Theorem updateItemQuantity_sets_first st i itemId upd c0 c' :
  (CartService0.getById i st).1 = Return c0 ->
  (CartService0.updateItemQuantity i itemId upd st).1 = Return c' ->
  exists l1 x l2,
    items c0 = l1 ++ x :: l2 /\
    id x = itemId /\ ~ In itemId (id <$> l1) /\
    items c' = l1 ++ mkItem itemId (new_quantity upd) :: l2 /\
    item_ids c' = item_ids c0 /\
    _id c' = _id c0 /\ customer c' = customer c0 /\ shipping c' = shipping c0.
Proof.
  unfold_cart; cbn.
  destruct (List.find _ (carts st)) as [c|]; cbn; [|done].
  intros [= ->].
  destruct (List.find _ (items c0)) as [x|] eqn:Hf; cbn; [|done].
  intros [= <-].
  destruct (find_split _ _ _ Hf) as (l1 & l2 & Hl & Hx & Hl1).
  pose proof Hx as Hx'. apply String.eqb_eq in Hx'.
  exists l1, x, l2. unfold item_ids. cbn. rewrite Hl.
  rewrite (assign_quantity_split _ _ _ _ _ Hl1 Hx), Hx'.
  split_and!; try done.
  - rewrite <- existsb_id_In. by rewrite Hl1.
  - rewrite !fmap_app, !fmap_cons. by rewrite Hx'.
Qed.

Lemma updateItemQuantity_sets_first_witness :
  (CartService0.getById "c1" demo_store).1 = Return demo_cart /\
  (CartService0.updateItemQuantity "c1" "p2" (mkUpdateItem 7) demo_store).1
  = Return (mkCart "c1" "u1" [mkItem "p1" 1; mkItem "p2" 7] ["standard"]) /\
  item_ids (mkCart "c1" "u1" [mkItem "p1" 1; mkItem "p2" 7] ["standard"])
  = item_ids demo_cart.
Proof.
  split; [reflexivity|]. split; [reflexivity|].
  destruct (updateItemQuantity_sets_first demo_store "c1" "p2" (mkUpdateItem 7)
              demo_cart
              (mkCart "c1" "u1" [mkItem "p1" 1; mkItem "p2" 7] ["standard"])
              eq_refl eq_refl)
    as (l1 & x & l2 & _ & _ & _ & _ & H & _).
  exact H.
Defined.

(** *** Adding items *)



Lemma replace_cart_same c0 l :
  NoDup (_id <$> l) -> In c0 l -> replace_cart c0 l = l.
Proof.
  induction l as [|x l IH]; [done|].
  rewrite fmap_cons, NoDup_cons. intros [Hx Hnd] Hin. simpl.
  destruct (String.eqb (_id x) (_id c0)) eqn:E.
  - apply String.eqb_eq in E. destruct Hin as [->|Hin]; [done|].
    exfalso. apply Hx. rewrite E. apply list_elem_of_fmap.
    exists c0. by rewrite list_elem_of_In.
  - destruct Hin as [->|Hin]; [by rewrite String.eqb_refl in E|].
    by rewrite IH.
Qed.

Lemma cast_item_canonical (it : ItemDto) :
  castObjectId (id it) = Some (id it) -> cast_item it = Some it.
Proof. unfold cast_item. intros ->. by destruct it. Qed.





(** X19: adding an item whose identity the user's cart already holds is a
    no-op: the call resolves to the cart as it was, the quantity of the
    request is dropped, and, carts having distinct identities, the store is
    unchanged. *)
Theorem addItem_known_item_kept generateId st userId newItem c0 :
  (findOne_customer userId st).1 = Return (Some c0) ->
  In (id newItem) (item_ids c0) ->
  (CartService0.addItem generateId userId newItem st).1 = Return c0 /\
  (NoDup (cart_ids st) ->
   (CartService0.addItem generateId userId newItem st).2 = st).
Proof.
  unfold_cart; cbn.
  destruct (List.find (fun c => String.eqb (customer c) userId) (carts st))
    as [c|] eqn:Hf; cbn; [|by destruct (isObjectId userId)].
  intros [= ->] Hin.
  apply existsb_id_In in Hin. rewrite Hin. cbn. split; [done|].
  intros Hnd. apply find_some in Hf as [Hf _].
  rewrite replace_cart_same by done. by destruct st.
Qed.

Lemma addItem_known_item_kept_witness :
  (findOne_customer "u1" demo_store).1 = Return (Some demo_cart) /\
  In (id (mkItem "p1" 9)) (item_ids demo_cart) /\
  (CartService0.addItem (fun _ => "c2") "u1" (mkItem "p1" 9) demo_store).1
  = Return demo_cart.
Proof.
  split; [reflexivity|]. split; [by left|].
  apply (addItem_known_item_kept (fun _ => "c2") demo_store "u1"
           (mkItem "p1" 9) demo_cart); [reflexivity|by left].
Defined.

(** X20: [addItem] keeps the identities of a cart's items distinct for a
    product written in canonical form: if the product reference of the new
    item is an ObjectId in canonical form and the user's cart, when there
    is one, has no two items of the same identity, neither has the cart
    the call resolves to.  (Under another spelling of a product the cart
    holds, the comparison misses it and [push] adds a second line: see
    [addItem_other_spelling].) *)
Theorem addItem_keeps_item_ids_distinct generateId st userId newItem c :
  castObjectId (id newItem) = Some (id newItem) ->
  (forall c0, (findOne_customer userId st).1 = Return (Some c0) ->
              NoDup (item_ids c0)) ->
  (CartService0.addItem generateId userId newItem st).1 = Return c ->
  NoDup (item_ids c).
Proof.
  intros Hi. pose proof (cast_item_canonical _ Hi) as Hci.
  unfold_cart; cbn. intros Hnd.
  destruct (List.find (fun c => String.eqb (customer c) userId) (carts st))
    as [c0|] eqn:Hf; cbn in *.
  - specialize (Hnd c0 eq_refl).
    destruct (existsb _ (items c0)) eqn:Hex; cbn; [by intros [= <-]|].
    rewrite Hci. cbn. intros [= <-].
    unfold item_ids in *. cbn. rewrite fmap_app. apply NoDup_app.
    split_and!; [done| |apply NoDup_singleton].
    intros x Hx Hx'. apply list_elem_of_In in Hx.
    cbn in Hx'. apply list_elem_of_singleton in Hx'. subst x.
    apply existsb_id_In in Hx. by rewrite Hx in Hex.
  - clear Hnd. destruct (isObjectId userId); cbn; [|done].
    destruct (castObjectId userId); cbn; [|done].
    rewrite Hci. cbn.
    destruct (List.find (fun x => String.eqb (_id x) _) (carts st)); cbn;
      [done|].
    intros [= <-]. apply NoDup_singleton.
Qed.

Lemma addItem_keeps_item_ids_distinct_witness :
  castObjectId (id (mkItem product_oid 1)) = Some (id (mkItem product_oid 1)) /\
  (forall c0, (findOne_customer "u1" demo_store).1 = Return (Some c0) ->
              NoDup (item_ids c0)) /\
  (CartService0.addItem (fun _ => "c2") "u1" (mkItem product_oid 1)
     demo_store).1
  = Return (mkCart "c1" "u1"
              [mkItem "p1" 1; mkItem "p2" 4; mkItem product_oid 1]
              ["standard"]) /\
  NoDup (item_ids (mkCart "c1" "u1"
                     [mkItem "p1" 1; mkItem "p2" 4; mkItem product_oid 1]
                     ["standard"])).
Proof.
  assert (H : forall c0,
            (findOne_customer "u1" demo_store).1 = Return (Some c0) ->
            NoDup (item_ids c0)).
  { intros c0 [= <-]. apply (bool_decide_unpack _). reflexivity. }
  split; [reflexivity|]. split; [exact H|]. split; [reflexivity|].
  apply (addItem_keeps_item_ids_distinct (fun _ => "c2") demo_store "u1"
           (mkItem product_oid 1)); [reflexivity|exact H|reflexivity].
Defined.

(** *** Shipping options *)

Lemma includes_In l x : includes l x = true <-> In x l.
Proof. apply existsb_eqb_In. Qed.

Lemma filter_new_In (sh opts : list string) o :
  In o (sh ++ List.filter (fun x => negb (includes sh x)) opts)
  <-> In o sh \/ In o opts.
Proof.
  rewrite in_app_iff, filter_In. split.
  - intros [H|[H _]]; auto.
  - intros [H|H]; [by left|].
    destruct (includes sh o) eqn:E; [left; by apply includes_In|].
    right. by split.
Qed.

Lemma filter_all_known (sh opts : list string) :
  (forall o, In o opts -> In o sh) ->
  List.filter (fun x => negb (includes sh x)) opts = [].
Proof.
  induction opts as [|o opts IH]; simpl; [done|]. intros H.
  assert (includes sh o = true) as -> by (apply includes_In, H; by left).
  simpl. apply IH. intros o' Ho'. apply H. by right.
Qed.

Lemma indexOf_last (sh : list string) o :
  ~ In o sh -> indexOf (sh ++ [o]) o = Z.of_nat (length sh).
Proof.
  unfold indexOf. induction sh as [|x sh IH]; simpl.
  - intros _. by rewrite String.eqb_refl.
  - intros Hn.
    assert (String.eqb o x = false) as ->
      by (apply String.eqb_neq; intros ->; apply Hn; by left).
    rewrite IH by (intros H; apply Hn; by right).
    destruct (Z.eqb_spec (Z.of_nat (length sh)) (-1)); lia.
Qed.

(** X21: [addShippingToCart] never rejects for a cart that exists; it
    keeps the options the cart had, in front, and the options of the cart
    afterwards are those it had and those of the request; a second call
    with the same request changes nothing. *)
Theorem addShippingToCart_idempotent st i dto c0 :
  (CartService1.getCartById i st).1 = Return c0 ->
  exists c',
    (CartService1.addShippingToCart i dto st).1 = Return c' /\
    shipping c0 `prefix_of` shipping c' /\
    (forall o, In o (shipping c') <->
               In o (shipping c0) \/ In o (shipping_options dto)) /\
    CartService1.addShippingToCart i dto
      (CartService1.addShippingToCart i dto st).2
    = (Return c', (CartService1.addShippingToCart i dto st).2).
Proof.
  unfold_cart; cbn.
  destruct (List.find _ (carts st)) as [c|] eqn:Hf; cbn; [|done].
  intros [= ->]. pose proof (find_by_id_Some _ _ _ Hf) as Hid.
  eexists. split; [reflexivity|]. cbn. split_and!.
  - by apply prefix_app_r.
  - intros o. apply filter_new_In.
  - set (c' := with_shipping _ c0).
    assert (Hf' : List.find (fun x => String.eqb (_id x) i)
                    (replace_cart c' (carts st)) = Some c').
    { rewrite <- Hid in *. by apply (find_replace_cart_eq c' _ c0). }
    rewrite Hf'. cbn.
    assert (Hfil :
      List.filter
        (fun x =>
           negb (includes
                   (shipping c0 ++
                    List.filter (fun x => negb (includes (shipping c0) x))
                      (shipping_options dto)) x))
        (shipping_options dto) = []).
    { apply filter_all_known. intros o Ho.
      apply (proj2 (filter_new_In (shipping c0) (shipping_options dto) o)).
      by right. }
    rewrite Hfil, app_nil_r.
    change (with_shipping (shipping c0 ++ List.filter _ (shipping_options dto)) c')
      with c'.
    by rewrite replace_cart_twice.
Qed.

Lemma addShippingToCart_idempotent_witness :
  (CartService1.getCartById "c1" demo_store).1 = Return demo_cart /\
  exists c',
    (CartService1.addShippingToCart "c1" (mkAddShipping ["express"])
       demo_store).1 = Return c' /\
    shipping demo_cart `prefix_of` shipping c'.
Proof.
  split; [reflexivity|].
  destruct (addShippingToCart_idempotent demo_store "c1"
              (mkAddShipping ["express"]) demo_cart eq_refl)
    as (c' & H1 & H2 & _).
  by exists c'.
Defined.

(** X22: adding one option the cart does not have and then removing it
    gives back the cart and the store as they were. *)
Theorem add_then_remove_shipping st i o c0 :
  (CartService1.getCartById i st).1 = Return c0 ->
  ~ In o (shipping c0) ->
  CartService1.removeShippingInCart i (mkRemoveShipping o)
    (CartService1.addShippingToCart i (mkAddShipping [o]) st).2
  = (Return c0, st).
Proof.
  unfold_cart; cbn.
  destruct (List.find _ (carts st)) as [c|] eqn:Hf; cbn; [|done].
  intros [= ->] Hn. pose proof (find_by_id_Some _ _ _ Hf) as Hid.
  assert (includes (shipping c0) o = false) as ->.
  { destruct (includes (shipping c0) o) eqn:E; [|done].
    by apply includes_In in E. }
  cbn. set (c1 := with_shipping _ c0).
  assert (Hf' : List.find (fun x => String.eqb (_id x) i)
                  (replace_cart c1 (carts st)) = Some c1).
  { rewrite <- Hid in *. by apply (find_replace_cart_eq c1 _ c0). }
  rewrite Hf'. cbn. rewrite indexOf_last by done.
  assert ((Z.of_nat (length (shipping c0)) >? -1)%Z = true) as ->
    by (apply Z.gtb_lt; lia).
  cbn. unfold splice1. rewrite Nat2Z.id, delete_middle, app_nil_r.
  assert (Hc : with_shipping (shipping c0) c1 = c0) by by destruct c0.
  rewrite Hc. rewrite <- Hid in Hf.
  rewrite (replace_cart_found c0 c1) by done.
  by destruct st.
Qed.

Lemma add_then_remove_shipping_witness :
  (CartService1.getCartById "c1" demo_store).1 = Return demo_cart /\
  ~ In "express" (shipping demo_cart) /\
  CartService1.removeShippingInCart "c1" (mkRemoveShipping "express")
    (CartService1.addShippingToCart "c1" (mkAddShipping ["express"])
       demo_store).2
  = (Return demo_cart, demo_store).
Proof.
  assert (Hn : ~ In "express" (shipping demo_cart))
    by (intros [H|[]]; discriminate).
  split; [reflexivity|]. split; [exact Hn|].
  apply (add_then_remove_shipping demo_store "c1" "express" demo_cart);
    [reflexivity|exact Hn].
Defined.

(** X23: for a cart that exists, [removeShippingInCart] rejects with
    NotFound exactly when the cart does not have the option; otherwise it
    takes out the first occurrence of the option and keeps the rest, items
    included. *)
Theorem removeShippingInCart_removes_first st i dto c0 :
  (CartService1.getCartById i st).1 = Return c0 ->
  match (CartService1.removeShippingInCart i dto st).1 with
  | Return c' =>
      exists l1 l2,
        shipping c0 = l1 ++ shipping_option dto :: l2 /\
        ~ In (shipping_option dto) l1 /\
        shipping c' = l1 ++ l2 /\
        items c' = items c0 /\ _id c' = _id c0 /\ customer c' = customer c0
  | Throw e =>
      ~ In (shipping_option dto) (shipping c0) /\
      e = NotFoundException
            ("Shipping option " +:+ shipping_option dto +:+ " not found in cart")
  end.
Proof.
  unfold_cart; cbn.
  destruct (List.find _ (carts st)) as [c|] eqn:Hf; cbn; [|done].
  intros [= ->]. unfold indexOf.
  pose proof (findIndex_lower (String.eqb (shipping_option dto)) (shipping c0)).
  destruct (Z.gtb_spec (findIndex (String.eqb (shipping_option dto))
                          (shipping c0)) (-1)) as [E|E]; cbn.
  - destruct (findIndex_split (String.eqb (shipping_option dto)) (shipping c0))
      as (l1 & x & l2 & Hl & Hx & Hl1 & Hlen); [lia|].
    apply String.eqb_eq in Hx. subst x.
    exists l1, l2. unfold splice1. rewrite Hlen, Hl, delete_middle.
    split_and!; try done.
    rewrite <- existsb_eqb_In. by rewrite Hl1.
  - split; [|done]. rewrite <- existsb_eqb_In.
    assert (findIndex (String.eqb (shipping_option dto)) (shipping c0) = -1)
      as Hm by lia.
    apply findIndex_none in Hm. by rewrite Hm.
Qed.

Lemma removeShippingInCart_removes_first_witness :
  (CartService1.getCartById "c1" demo_store).1 = Return demo_cart /\
  match (CartService1.removeShippingInCart "c1" (mkRemoveShipping "standard")
           demo_store).1 with
  | Return c' =>
      exists l1 l2,
        shipping demo_cart = l1 ++ "standard" :: l2 /\
        ~ In "standard" l1 /\
        shipping c' = l1 ++ l2 /\
        items c' = items demo_cart /\ _id c' = _id demo_cart /\
        customer c' = customer demo_cart
  | Throw e =>
      ~ In "standard" (shipping demo_cart) /\
      e = NotFoundException
            ("Shipping option " +:+ "standard" +:+ " not found in cart")
  end.
Proof.
  split; [reflexivity|].
  apply (removeShippingInCart_removes_first demo_store "c1"
           (mkRemoveShipping "standard") demo_cart).
  reflexivity.
Defined.

(** *** Deleting carts, and the identities of the collection *)

Lemma find_delete_cart_eq l i :
  NoDup (_id <$> l) ->
  List.find (fun x => String.eqb (_id x) i) (delete_cart i l) = None.
Proof.
  induction l as [|x l IH]; [done|].
  rewrite fmap_cons, NoDup_cons. intros [Hx Hnd]. simpl.
  destruct (String.eqb (_id x) i) eqn:E; simpl.
  - apply String.eqb_eq in E. subst i.
    apply find_none_existsb.
    destruct (existsb _ l) eqn:Hex; [|done].
    apply existsb_exists in Hex as (y & Hy & He).
    apply String.eqb_eq in He. exfalso. apply Hx. rewrite <- He.
    apply list_elem_of_fmap. exists y. by rewrite list_elem_of_In.
  - rewrite E. by apply IH.
Qed.

Lemma delete_cart_length l i c :
  List.find (fun x => String.eqb (_id x) i) l = Some c ->
  (length (delete_cart i l) + 1 = length l)%nat.
Proof.
  induction l as [|x l IH]; simpl; [done|].
  destruct (String.eqb (_id x) i); simpl; [lia|].
  intros H. rewrite <- (IH H). lia.
Qed.


(** X24: [removeCart] deletes the cart for good.  Carts having distinct
    identities, after a call that resolved the collection has one cart
    less, [getCartById] for the identity rejects with NotFound, and so
    does a second [removeCart]. *)
Theorem removeCart_deletes st i message :
  NoDup (cart_ids st) ->
  (CartService1.removeCart i st).1 = Return message ->
  message = "Cart deleted successfully" /\
  (length (carts (CartService1.removeCart i st).2) + 1
   = length (carts st))%nat /\
  (CartService1.getCartById i (CartService1.removeCart i st).2).1
  = Throw (NotFoundException ("Cart with ID " +:+ i +:+ " not found")) /\
  (CartService1.removeCart i (CartService1.removeCart i st).2).1
  = Throw (NotFoundException ("Cart with ID " +:+ i +:+ " not found")).
Proof.
  unfold cart_ids. unfold_cart; cbn. intros Hnd.
  destruct (List.find _ (carts st)) as [c|] eqn:Hf; cbn; [|done].
  intros [= <-]. rewrite find_delete_cart_eq by done. cbn.
  split_and!; try done. by eapply delete_cart_length.
Qed.

Lemma removeCart_deletes_witness :
  NoDup (cart_ids demo_store) /\
  (CartService1.removeCart "c1" demo_store).1
  = Return "Cart deleted successfully" /\
  (CartService1.getCartById "c1" (CartService1.removeCart "c1" demo_store).2).1
  = Throw (NotFoundException ("Cart with ID " +:+ "c1" +:+ " not found")).
Proof.
  assert (Hnd : NoDup (cart_ids demo_store))
    by (apply (bool_decide_unpack _); reflexivity).
  split; [exact Hnd|]. split; [reflexivity|].
  apply (removeCart_deletes demo_store "c1" "Cart deleted successfully");
    [exact Hnd|reflexivity].
Defined.






(** *** The getters *)

(** X26: the getters only read, and they agree: [getWithItemsById]
    rejects exactly when [getById] does, with the same exception, and
    otherwise resolves to the cart [getById] gives, populated from the
    product collection; neither changes the store, nor does
    [getWithItemsByUserId]. *)
Theorem cart_getters_agree st i userId :
  match (CartService0.getById i st).1 with
  | Return c =>
      (CartService0.getWithItemsById i st).1
      = Return (populated (products st) c)
  | Throw e => (CartService0.getWithItemsById i st).1 = Throw e
  end /\
  (CartService0.getById i st).2 = st /\
  (CartService0.getWithItemsById i st).2 = st /\
  (CartService0.getWithItemsByUserId userId st).2 = st.
Proof.
  unfold_cart; cbn. split_and!.
  - by destruct (List.find _ (carts st)).
  - by destruct (List.find _ (carts st)).
  - by destruct (List.find _ (carts st)).
  - destruct (List.find (fun c => String.eqb (customer c) userId) (carts st));
      [done|]. by destruct (isObjectId userId).
Qed.

End CartTheorems.
